(** * resize/main.c: the ext2 resizer's main program

    A shallow embedding of [resize/main.c] (e2fsprogs): the command-line
    driver that checks that a resize is safe, settles the target size,
    calls the resize engine and turns the engine's per-pass progress
    callbacks into calls on one progress meter.

    The program is sequential C code that talks to the outside world
    (libc, libext2fs, the resize engine) and may leave through [exit] at
    many places.  It is modelled in a small monad [proc]: a computation
    yields the list of the outside calls and messages it performed, in
    order, together with either a returned value or the status given to
    [exit].  The answers of the outside world are the fields of the class
    [World]; the constants of the headers the file includes are the
    fields of the class [Headers]. *)

From Stdlib Require Import ZArith List String Ascii Bool Lia Permutation.
Import ListNotations.
Open Scope string_scope.
Open Scope list_scope.
Open Scope Z_scope.

(** ** Data *)

(** The fields of [struct ext2_super_block] (seen through [struct
    ext2fs_sb] for the feature words) that the program reads.  All are
    [__u32]. *)
Record ext2_super_block := {
  s_blocks_count : Z;
  s_mtime : Z;
  s_lastcheck : Z;
  s_feature_compat : Z;
  s_feature_incompat : Z;
  s_feature_ro_compat : Z
}.

(** The fields of [struct struct_ext2_filsys] the program reads. *)
Record ext2_filsys := {
  super : ext2_super_block;
  blocksize : Z
}.

(** The resize handle the engine passes to the progress callback; the
    callback only touches its [prog_data] slot, a pointer (0 is NULL). *)
Record ext2_resize_t := {
  prog_data : Z
}.

Inductive io_manager := unix_io_manager | test_io_manager.

(** [blk_t] is [__u32]: a value stored in one is taken modulo 2^32. *)
Definition blk_t (v : Z) : Z := v mod 2 ^ 32.

(** ** Observable actions *)

Inductive stream := stdout | stderr.

(** An argument of a [printf]-style call. *)
Inductive arg :=
| AStr (s : string)
| ANum (n : Z).

(** What a run does to the outside world, one constructor per function
    called.  Format strings are kept as the source writes them.  Constant
    arguments are left out: the mode 0 of [open], the third argument 0 of
    [ioctl], the superblock and block size 0 of [ext2fs_open], and the
    30, 40 and 0 of [ext2fs_progress_init]. *)
Inductive event :=
| Ev_initialize_ext2_error_table
| Ev_fprintf (f : stream) (fmt : string) (args : list arg)
| Ev_com_err (whoami : string) (code : Z) (fmt : string) (args : list arg)
| Ev_ext2fs_check_if_mounted (device : string)
| Ev_open (path : string) (oflag : Z)
| Ev_ioctl (fd : Z) (request : Z)
| Ev_close (fd : Z)
| Ev_set_test_io_backing_manager (io : io_manager)
| Ev_ext2fs_open (name : string) (flags : Z) (io : io_manager)
| Ev_ext2fs_get_device_size (file : string) (blocksize : Z)
| Ev_resize_fs (fs : ext2_filsys) (new_size : Z) (flags : Z) (progress : bool)
| Ev_ext2fs_close (fs : ext2_filsys)
| Ev_ext2fs_progress_init (label : string) (max : Z)
| Ev_ext2fs_progress_update (prog : Z) (cur : Z)
| Ev_ext2fs_progress_close (prog : Z).

Definition trace := list event.

(** ** The monad of a process that may exit *)

Inductive outcome (A : Type) : Type :=
| Returns (a : A)
| Exits (status : Z).
Arguments Returns {A} a.
Arguments Exits {A} status.

Definition proc (A : Type) : Type := (trace * outcome A)%type.

Definition ret {A : Type} (a : A) : proc A := ([], Returns a).
Definition exit {A : Type} (status : Z) : proc A := ([], Exits status).
Definition emit (e : event) : proc unit := ([e], Returns tt).

Definition bind {A B : Type} (m : proc A) (k : A -> proc B) : proc B :=
  match m with
  | (t, Returns a) => let (t', o) := k a in (t ++ t', o)
  | (t, Exits s) => (t, Exits s)
  end.

Notation "x <- m ;; k" := (bind m (fun x => k))
  (at level 61, m at next level, right associativity).
Notation "' pat <- m ;; k" := (bind m (fun x => match x with pat => k end))
  (at level 61, pat pattern, m at next level, right associativity).
Notation "m ;; k" := (bind m (fun _ => k))
  (at level 61, right associativity).

Definition fprintf (f : stream) (fmt : string) (args : list arg) : proc unit :=
  emit (Ev_fprintf f fmt args).
Definition printf (fmt : string) (args : list arg) : proc unit :=
  fprintf stdout fmt args.
Definition com_err (whoami : string) (code : Z) (fmt : string)
    (args : list arg) : proc unit :=
  emit (Ev_com_err whoami code fmt args).

(** The exit status of the process: the value [main] returns, or the
    argument of the [exit] call that ended it. *)
Definition exit_status (r : proc Z) : Z :=
  match snd r with
  | Returns v => v
  | Exits s => s
  end.

Definition events {A : Type} (r : proc A) : trace := fst r.

(** ** The outside world *)

(** Constants of the headers [main.c] includes ([resize2fs.h],
    [ext2fs.h], [version.h], [fcntl.h], [linux/fs.h]); they are not part
    of the file, so they are parameters.  [BLKFLSBUF] is [None] when the
    macro is not defined. *)
Class Headers := {
  E2FSPROGS_VERSION : string;
  E2FSPROGS_DATE : string;
  RESIZE_DEBUG_IO : Z;
  RESIZE_PERCENT_COMPLETE : Z;
  E2_RSZ_EXTEND_ITABLE_PASS : Z;
  E2_RSZ_BLOCK_RELOC_PASS : Z;
  E2_RSZ_INODE_SCAN_PASS : Z;
  E2_RSZ_INODE_REF_UPD_PASS : Z;
  E2_RSZ_MOVE_ITABLE_PASS : Z;
  EXT2_MF_MOUNTED : Z;
  EXT2_FLAG_RW : Z;
  EXT2_LIB_FEATURE_COMPAT_SUPP : Z;
  EXT2_LIB_FEATURE_RO_COMPAT_SUPP : Z;
  EXT2_ET_UNSUPP_FEATURE : Z;
  O_RDONLY : Z;
  BLKFLSBUF : option Z
}.

(** One progress callback of the engine: [(pass, cur, max)]. *)
Definition progress_call : Type := (Z * Z * Z)%type.

(** The answers of the functions [main.c] calls and does not define.
    Each is a function of the call's arguments ([main] makes each of
    these calls at most once in a run, the progress calls apart).
    - [strtoul s] gives the converted value and the unparsed tail
      ([tmp]);
    - [ext2fs_check_if_mounted] gives [(retval, mount_flags)];
    - [open] and [ioctl] give [(result, errno)];
    - [ext2fs_open] gives [(retval, fs)], [ext2fs_get_device_size] gives
      [(retval, max_size)];
    - [resize_fs fs new_size flags progress] gives the calls the engine
      makes to the progress callback when it is handed one, and its
      [retval];
    - [ext2fs_progress_init label max] gives [(retval, progress)]. *)
Class World := {
  atoi : string -> Z;
  strtoul : string -> Z * string;
  ext2fs_check_if_mounted : string -> Z * Z;
  open : string -> Z -> Z * Z;
  ioctl : Z -> Z -> Z * Z;
  ext2fs_open : string -> Z -> io_manager -> Z * ext2_filsys;
  ext2fs_get_device_size : string -> Z -> Z * Z;
  resize_fs : ext2_filsys -> Z -> Z -> bool -> list progress_call * Z;
  ext2fs_progress_init : string -> Z -> Z * Z
}.

(** The command line as [getopt] hands it over: [argv[0]] (there is one:
    [argc] is at least 1), the option characters successive [getopt]
    calls return (with [optarg]), and the operands left from [optind]
    on. *)
Record cmdline := {
  argv0 : string;
  options : list (ascii * string);
  operands : list string
}.

(** The variables of [main] that the option loop and the operands
    settle.  [flush] and [force] are [int]s used as truth values. *)
Record request := {
  program_name : string;
  device_name : string;
  new_size : Z;
  flags : Z;
  flush : bool;
  force : bool
}.

Section Driver.

Context {hdr : Headers} {w : World}.

(** ** [usage] (lines 29-37); [EXPIRE_TIME] is not defined *)
Definition usage {A : Type} (prog : string) : proc A :=
  fprintf stderr
    "usage: %s [-d debug_flags] [-f] [-F] [-p] device [new-size]\n\n"
    [AStr prog] ;;
  exit 1.

(** ** [resize_progress_func] (lines 39-89)

    The result is the calls made, the handle as the callback leaves it,
    and the returned [errcode_t]. *)
Definition pass_label (pass : Z) : string :=
  if pass =? E2_RSZ_EXTEND_ITABLE_PASS then "Extending the inode table"
  else if pass =? E2_RSZ_BLOCK_RELOC_PASS then "Relocating blocks"
  else if pass =? E2_RSZ_INODE_SCAN_PASS then "Scanning inode table"
  else if pass =? E2_RSZ_INODE_REF_UPD_PASS then "Updating inode references"
  else if pass =? E2_RSZ_MOVE_ITABLE_PASS then "Moving inode table"
  else "Unknown pass?!?".

Definition resize_progress_func (rfs : ext2_resize_t) (pass cur max : Z)
    : trace * ext2_resize_t * Z :=
  let progress := prog_data rfs in
  if max =? 0 then ([], rfs, 0)
  else
    let '(t1, progress, rfs) :=
      if cur =? 0 then
        let t_close :=
          if progress =? 0 then [] else [Ev_ext2fs_progress_close progress] in
        let label := pass_label pass in
        let '(retval, p) := ext2fs_progress_init label max in
        let progress := if retval =? 0 then p else 0 in
        (t_close
           ++ [Ev_fprintf stdout "Begin pass %d (max = %lu)\n"
                 [ANum pass; ANum max];
               Ev_ext2fs_progress_init label max],
         progress, {| prog_data := progress |})
      else ([], progress, rfs) in
    let t2 :=
      if progress =? 0 then [] else [Ev_ext2fs_progress_update progress cur] in
    let '(t3, rfs) :=
      if max <=? cur then
        (if progress =? 0 then [] else [Ev_ext2fs_progress_close progress],
         {| prog_data := 0 |})
      else ([], rfs) in
    (t1 ++ t2 ++ t3, rfs, 0).

(** The engine calling the callback on each of its progress points in
    turn; the callback's return value is always 0 and is not looked at. *)
Fixpoint run_progress (rfs : ext2_resize_t) (calls : list progress_call)
    : trace * ext2_resize_t :=
  match calls with
  | [] => ([], rfs)
  | (pass, cur, max) :: rest =>
      let '(t, rfs', _) := resize_progress_func rfs pass cur max in
      let '(t', rfs'') := run_progress rfs' rest in
      (t ++ t', rfs'')
  end.

(** ** [check_mount] (lines 91-109) *)
Definition check_mount (device : string) : proc unit :=
  emit (Ev_ext2fs_check_if_mounted device) ;;
  let '(retval, mount_flags) := ext2fs_check_if_mounted device in
  if negb (retval =? 0) then
    com_err "ext2fs_check_if_mount" retval
      "while determining whether %s is mounted." [AStr device] ;;
    ret tt
  else if Z.land mount_flags EXT2_MF_MOUNTED =? 0 then
    ret tt
  else
    fprintf stderr "%s is mounted; can't resize a mounted filesystem!\n\n"
      [AStr device] ;;
    exit 1.

(** ** [main] (lines 133-287) *)

(** The option loop (lines 156-176) over what [getopt] returns. *)
Fixpoint getopt_loop (prog : string) (opts : list (ascii * string))
    (flags : Z) (flush force : bool) : proc (Z * bool * bool) :=
  match opts with
  | [] => ret (flags, flush, force)
  | (c, optarg) :: rest =>
      if Ascii.eqb c "h" then usage prog
      else if Ascii.eqb c "f" then getopt_loop prog rest flags flush true
      else if Ascii.eqb c "F" then getopt_loop prog rest flags true force
      else if Ascii.eqb c "d" then
        getopt_loop prog rest (Z.lor flags (atoi optarg)) flush force
      else if Ascii.eqb c "p" then
        getopt_loop prog rest (Z.lor flags RESIZE_PERCENT_COMPLETE) flush force
      else usage prog
  end.

(** Lines 148-194: banner, options and operands. *)
Definition parse_args (cl : cmdline) : proc request :=
  emit Ev_initialize_ext2_error_table ;;
  fprintf stderr "resize2fs %s (%s)\n"
    [AStr E2FSPROGS_VERSION; AStr E2FSPROGS_DATE] ;;
  fprintf stderr
    "Copyright 1998 by Theodore Ts'o and PowerQuest, Inc.  All Rights Reserved.\n\n"
    [] ;;
  let program_name := argv0 cl in
  '(flags, flush, force) <- getopt_loop program_name (options cl) 0 false false ;;
  match operands cl with
  | [] => usage program_name
  | device_name :: rest =>
      new_size <-
        match rest with
        | [] => ret 0
        | size_arg :: _ =>
            let '(v, tmp) := strtoul size_arg in
            if (tmp =? "")%string then ret (blk_t v)
            else
              com_err program_name 0 "bad filesystem size - %s"
                [AStr size_arg] ;;
              exit 1
        end ;;
      match rest with
      | _ :: _ :: _ => usage program_name
      | _ =>
          ret {| program_name := program_name; device_name := device_name;
                 new_size := new_size; flags := flags;
                 flush := flush; force := force |}
      end
  end.

(** Lines 198-217: the flush of the device's buffer cache that [-F] asks
    for. *)
Definition flush_device (device_name : string) : proc unit :=
  match BLKFLSBUF with
  | Some request =>
      emit (Ev_open device_name O_RDONLY) ;;
      let '(fd, errno) := open device_name O_RDONLY in
      if fd <? 0 then
        com_err "open" errno "while opening %s for flushing"
          [AStr device_name] ;;
        exit 1
      else
        emit (Ev_ioctl fd request) ;;
        let '(r, errno) := ioctl fd request in
        if r <? 0 then
          com_err "BLKFLSBUF" errno "while trying to flush %s"
            [AStr device_name] ;;
          exit 1
        else emit (Ev_close fd)
  | None =>
      fprintf stderr "BLKFLSBUF not supported" [] ;;
      exit 1
  end.

(** Line 198: the flush is made only when [-F] was given. *)
Definition flush_if_requested (req : request) : proc unit :=
  if flush req then flush_device (device_name req) else ret tt.

(** The feature test of lines 238-239, as written: the compatible word
    against the compatible mask, the incompatible word against the
    read-only-compatible mask. *)
Definition unsupported_features (s : ext2_super_block) : bool :=
  negb (Z.land (s_feature_compat s)
          (Z.lnot EXT2_LIB_FEATURE_COMPAT_SUPP) =? 0)
  || negb (Z.land (s_feature_incompat s)
             (Z.lnot EXT2_LIB_FEATURE_RO_COMPAT_SUPP) =? 0).

(** Lines 219-243: choice of the I/O manager, [ext2fs_open], feature
    test. *)
Definition open_filesystem (req : request) : proc ext2_filsys :=
  io_ptr <-
    (if negb (Z.land (flags req) RESIZE_DEBUG_IO =? 0) then
       emit (Ev_set_test_io_backing_manager unix_io_manager) ;;
       ret test_io_manager
     else ret unix_io_manager) ;;
  emit (Ev_ext2fs_open (device_name req) EXT2_FLAG_RW io_ptr) ;;
  let '(retval, fs) := ext2fs_open (device_name req) EXT2_FLAG_RW io_ptr in
  if negb (retval =? 0) then
    com_err (program_name req) retval "while trying to open %s"
      [AStr (device_name req)] ;;
    printf "Couldn't find valid filesystem superblock.\n" [] ;;
    exit 1
  else if unsupported_features (super fs) then
    com_err (program_name req) EXT2_ET_UNSUPP_FEATURE "(%s)"
      [AStr (device_name req)] ;;
    exit 1
  else ret fs.

(** Lines 250-256: the size of the containing partition, stored in the
    [blk_t] variable [max_size]. *)
Definition probe_device_size (req : request) (fs : ext2_filsys) : proc Z :=
  emit (Ev_ext2fs_get_device_size (device_name req) (blocksize fs)) ;;
  let '(retval, max_size) :=
    ext2fs_get_device_size (device_name req) (blocksize fs) in
  if negb (retval =? 0) then
    com_err (program_name req) retval
      "while trying to determine filesystem size" [] ;;
    exit 1
  else ret (blk_t max_size).

(** Lines 257-258: [if (!new_size) new_size = max_size]. *)
Definition resolved_size (new_size max_size : Z) : Z :=
  if new_size =? 0 then max_size else new_size.

(** The fourth argument of [resize_fs] (lines 277-278): is the callback
    handed over? *)
Definition progress_requested (flags : Z) : bool :=
  negb (Z.land flags RESIZE_PERCENT_COMPLETE =? 0).

Fixpoint emit_all (t : trace) : proc unit :=
  match t with
  | [] => ret tt
  | e :: t' => emit e ;; emit_all t'
  end.

(** Lines 257-286: size resolution, the remaining tests, the engine and
    the final report.  The engine starts from a handle whose [prog_data]
    is NULL. *)
Definition resize_and_report (req : request) (fs : ext2_filsys)
    (max_size : Z) : proc Z :=
  let new_size := resolved_size (new_size req) max_size in
  if negb (force req) && (max_size <? new_size) then
    fprintf stderr
      "The containing partition (or device) is only %d blocks.\nYou requested a new size of %d blocks.\n\n"
      [ANum max_size; ANum new_size] ;;
    exit 1
  else if new_size =? s_blocks_count (super fs) then
    fprintf stderr
      "The filesystem is already %d blocks long.  Nothing to do!\n\n"
      [ANum new_size] ;;
    exit 0
  else if negb (force req)
          && (s_lastcheck (super fs) <? s_mtime (super fs)) then
    fprintf stderr "Please run 'e2fsck -f %s' first.\n\n"
      [AStr (device_name req)] ;;
    exit 1
  else
    let progress := progress_requested (flags req) in
    emit (Ev_resize_fs fs new_size (flags req) progress) ;;
    let '(calls, retval) := resize_fs fs new_size (flags req) progress in
    (if progress then emit_all (fst (run_progress {| prog_data := 0 |} calls))
     else ret tt) ;;
    (if negb (retval =? 0) then
       com_err (program_name req) retval "while trying to resize %s"
         [AStr (device_name req)] ;;
       emit (Ev_ext2fs_close fs)
     else ret tt) ;;
    printf "The filesystem on %s is now %d blocks long.\n\n"
      [AStr (device_name req); ANum new_size] ;;
    ret 0.

Definition main (cl : cmdline) : proc Z :=
  req <- parse_args cl ;;
  check_mount (device_name req) ;;
  flush_if_requested req ;;
  fs <- open_filesystem req ;;
  max_size <- probe_device_size req fs ;;
  resize_and_report req fs max_size.

(** *** Views of [main] used to state properties *)

(** The three lines every run starts with. *)
Definition banner : trace :=
  [Ev_initialize_ext2_error_table;
   Ev_fprintf stderr "resize2fs %s (%s)\n"
     [AStr E2FSPROGS_VERSION; AStr E2FSPROGS_DATE];
   Ev_fprintf stderr
     "Copyright 1998 by Theodore Ts'o and PowerQuest, Inc.  All Rights Reserved.\n\n"
     []].

(** Lines 198-286: what [main] does once [check_mount] has returned. *)
Definition after_mount (req : request) : proc Z :=
  flush_if_requested req ;;
  fs <- open_filesystem req ;;
  max_size <- probe_device_size req fs ;;
  resize_and_report req fs max_size.

(** Lines 148-256: everything [main] does before it settles the size;
    when it returns, the request is parsed, the filesystem is open and
    the device size is known. *)
Definition preflight (cl : cmdline) : proc (request * ext2_filsys * Z) :=
  req <- parse_args cl ;;
  check_mount (device_name req) ;;
  flush_if_requested req ;;
  fs <- open_filesystem req ;;
  max_size <- probe_device_size req fs ;;
  ret (req, fs, max_size).

(** The value of [flags] the option loop builds from a start value: each
    [-d] ORs in [atoi(optarg)], each [-p] ORs in
    [RESIZE_PERCENT_COMPLETE]. *)
Definition combined_flags (opts : list (ascii * string)) (start : Z) : Z :=
  fold_left
    (fun acc (o : ascii * string) =>
       if Ascii.eqb (fst o) "d" then Z.lor acc (atoi (snd o))
       else if Ascii.eqb (fst o) "p" then Z.lor acc RESIZE_PERCENT_COMPLETE
       else acc)
    opts start.

(** The mount test of [check_mount] lets the run go on: the probe failed,
    or it did not report the device as mounted. *)
Definition mount_gate_passes (device : string) : bool :=
  let '(retval, mount_flags) := ext2fs_check_if_mounted device in
  negb (retval =? 0) || (Z.land mount_flags EXT2_MF_MOUNTED =? 0).

(** The flush fails when the request code is not there, when the device
    cannot be opened, or when the [ioctl] fails; then the program exits
    with 1. *)
Definition flush_fails (device : string) : Prop :=
  match BLKFLSBUF with
  | None => True
  | Some request =>
      fst (open device O_RDONLY) < 0
      \/ fst (ioctl (fst (open device O_RDONLY)) request) < 0
  end.

(** The events of lines 276-285 when the engine is called for the size
    [n]: the call, what the callback does on the engine's progress points
    if it was handed over, the error report and [ext2fs_close] if the
    engine failed, and the closing message. *)
Definition engine_events (req : request) (fs : ext2_filsys) (n : Z) : trace :=
  let progress := progress_requested (flags req) in
  let '(calls, retval) := resize_fs fs n (flags req) progress in
  Ev_resize_fs fs n (flags req) progress
  :: (if progress then fst (run_progress {| prog_data := 0 |} calls) else [])
  ++ (if negb (retval =? 0) then
        [Ev_com_err (program_name req) retval "while trying to resize %s"
           [AStr (device_name req)];
         Ev_ext2fs_close fs]
      else [])
  ++ [Ev_fprintf stdout "The filesystem on %s is now %d blocks long.\n\n"
        [AStr (device_name req); ANum n]].

(** The size test of line 259 lets the run through. *)
Definition capacity_gate_passes (req : request) (max_size : Z) : Prop :=
  force req = true \/ resolved_size (new_size req) max_size <= max_size.

(** The test of line 271 lets the run through. *)
Definition consistency_gate_passes (req : request) (fs : ext2_filsys) : Prop :=
  force req = true \/ s_mtime (super fs) <= s_lastcheck (super fs).

End Driver.

(** ** Kinds of events

    Every event belongs to one step of the program; messages belong to
    none. *)
Inductive kind :=
| KMessage | KMountProbe | KFlush | KOpen | KSizeProbe | KEngine
| KProgress | KClose.

Definition kind_of (e : event) : kind :=
  match e with
  | Ev_initialize_ext2_error_table => KMessage
  | Ev_fprintf _ _ _ => KMessage
  | Ev_com_err _ _ _ _ => KMessage
  | Ev_ext2fs_check_if_mounted _ => KMountProbe
  | Ev_open _ _ => KFlush
  | Ev_ioctl _ _ => KFlush
  | Ev_close _ => KFlush
  | Ev_set_test_io_backing_manager _ => KOpen
  | Ev_ext2fs_open _ _ _ => KOpen
  | Ev_ext2fs_get_device_size _ _ => KSizeProbe
  | Ev_resize_fs _ _ _ _ => KEngine
  | Ev_ext2fs_close _ => KClose
  | Ev_ext2fs_progress_init _ _ => KProgress
  | Ev_ext2fs_progress_update _ _ => KProgress
  | Ev_ext2fs_progress_close _ => KProgress
  end.

(** Every event of [t] has one of the kinds [ks]. *)
Definition kinds (ks : list kind) (t : trace) : Prop :=
  Forall (fun e => In (kind_of e) ks) t.

Definition is_engine_call (e : event) : bool :=
  match e with
  | Ev_resize_fs _ _ _ _ => true
  | _ => false
  end.

(** How many times the run called [resize_fs]. *)
Definition engine_calls (t : trace) : nat :=
  List.length (filter is_engine_call t).

(** ** A concrete setting

    Sample values for the header constants, and a world in which every
    call succeeds: an unmounted device of 1000 blocks holding a clean
    filesystem of 500 blocks. *)
Definition hdr0 : Headers := {|
  E2FSPROGS_VERSION := "1.12";
  E2FSPROGS_DATE := "9-Jul-98";
  RESIZE_DEBUG_IO := 1;
  RESIZE_PERCENT_COMPLETE := 256;
  E2_RSZ_EXTEND_ITABLE_PASS := 1;
  E2_RSZ_BLOCK_RELOC_PASS := 2;
  E2_RSZ_INODE_SCAN_PASS := 3;
  E2_RSZ_INODE_REF_UPD_PASS := 4;
  E2_RSZ_MOVE_ITABLE_PASS := 5;
  EXT2_MF_MOUNTED := 1;
  EXT2_FLAG_RW := 1;
  EXT2_LIB_FEATURE_COMPAT_SUPP := 0;
  EXT2_LIB_FEATURE_RO_COMPAT_SUPP := 1;
  EXT2_ET_UNSUPP_FEATURE := 2133571347;
  O_RDONLY := 0;
  BLKFLSBUF := Some 4705
|}.

Definition sb0 : ext2_super_block := {|
  s_blocks_count := 500;
  s_mtime := 100;
  s_lastcheck := 200;
  s_feature_compat := 0;
  s_feature_incompat := 0;
  s_feature_ro_compat := 0
|}.

Definition fs0 : ext2_filsys := {| super := sb0; blocksize := 1024 |}.

(** Decimal digits only; enough for the sample command lines. *)
Fixpoint digits (s : string) (acc : Z) : Z * string :=
  match s with
  | String c s' =>
      let n := Z.of_N (N_of_ascii c) in
      if (48 <=? n) && (n <=? 57) then digits s' (10 * acc + (n - 48))
      else (acc, s)
  | EmptyString => (acc, s)
  end.

(** The world in which the mount probe answers [mounted], [ext2fs_open]
    answers [opened], the size probe answers [size] and the engine
    answers [engine]; the flush calls succeed and a progress meter can
    always be made. *)
Definition world_of (mounted : Z * Z) (opened : Z * ext2_filsys)
    (size : Z * Z) (engine : list progress_call * Z) : World := {|
  atoi := fun s => fst (digits s 0);
  strtoul := fun s => digits s 0;
  ext2fs_check_if_mounted := fun _ => mounted;
  open := fun _ _ => (3, 0);
  ioctl := fun _ _ => (0, 0);
  ext2fs_open := fun _ _ _ => opened;
  ext2fs_get_device_size := fun _ _ => size;
  resize_fs := fun _ _ _ _ => engine;
  ext2fs_progress_init := fun _ max => (0, 4096 + max)
|}.

Definition w0 : World := world_of (0, 0) (0, fs0) (0, 1000) ([], 0).

(** The engine fails with error 12. *)
Definition w_engine_fails : World :=
  world_of (0, 0) (0, fs0) (0, 1000) ([], 12).

(** The mount probe fails with error 2. *)
Definition w_probe_fails : World :=
  world_of (2, 0) (0, fs0) (0, 1000) ([], 0).

(** The device is mounted. *)
Definition w_mounted : World :=
  world_of (0, 1) (0, fs0) (0, 1000) ([], 0).

(** [ext2fs_open] fails with error 2. *)
Definition w_open_fails : World :=
  world_of (0, 0) (2, fs0) (0, 1000) ([], 0).

(** A filesystem of 1500 blocks on a device of 1000 blocks. *)
Definition sb_1500 : ext2_super_block := {|
  s_blocks_count := 1500;
  s_mtime := 100;
  s_lastcheck := 200;
  s_feature_compat := 0;
  s_feature_incompat := 0;
  s_feature_ro_compat := 0
|}.

Definition w_fs_larger_than_device : World :=
  world_of (0, 0) (0, {| super := sb_1500; blocksize := 1024 |})
    (0, 1000) ([], 0).

(** A filesystem whose read-only-compatible feature word has bit 15 set,
    a bit outside [EXT2_LIB_FEATURE_RO_COMPAT_SUPP] of [hdr0]. *)
Definition sb_ro_feature : ext2_super_block := {|
  s_blocks_count := 500;
  s_mtime := 100;
  s_lastcheck := 200;
  s_feature_compat := 0;
  s_feature_incompat := 0;
  s_feature_ro_compat := 32768
|}.

Definition fs_ro_feature : ext2_filsys :=
  {| super := sb_ro_feature; blocksize := 1024 |}.

Definition w_ro_feature : World :=
  world_of (0, 0) (0, fs_ro_feature) (0, 1000) ([], 0).

(** A filesystem modified after its last check. *)
Definition sb_unchecked : ext2_super_block := {|
  s_blocks_count := 500;
  s_mtime := 300;
  s_lastcheck := 200;
  s_feature_compat := 0;
  s_feature_incompat := 0;
  s_feature_ro_compat := 0
|}.

Definition w_unchecked : World :=
  world_of (0, 0) (0, {| super := sb_unchecked; blocksize := 1024 |})
    (0, 1000) ([], 0).

(** The [ioctl] that flushes the device fails with [errno] 25. *)
Definition w_flush_fails : World := {|
  atoi := fun s => fst (digits s 0);
  strtoul := fun s => digits s 0;
  ext2fs_check_if_mounted := fun _ => (0, 0);
  open := fun _ _ => (3, 0);
  ioctl := fun _ _ => (-1, 25);
  ext2fs_open := fun _ _ _ => (0, fs0);
  ext2fs_get_device_size := fun _ _ => (0, 1000);
  resize_fs := fun _ _ _ _ => ([], 0);
  ext2fs_progress_init := fun _ max => (0, 4096 + max)
|}.

(** The engine reports two passes: the first in three steps, the second
    in two. *)
Definition two_passes (passA passB : Z) : list progress_call :=
  [(passA, 0, 100); (passA, 50, 100); (passA, 100, 100);
   (passB, 0, 10); (passB, 10, 10)].

Definition w_two_passes : World :=
  world_of (0, 0) (0, fs0) (0, 1000) (two_passes 1 2, 0).

(** Counting the calls on the progress meter in a trace. *)
Definition is_progress_init (e : event) : bool :=
  match e with Ev_ext2fs_progress_init _ _ => true | _ => false end.
Definition is_progress_update (e : event) : bool :=
  match e with Ev_ext2fs_progress_update _ _ => true | _ => false end.
Definition is_progress_close (e : event) : bool :=
  match e with Ev_ext2fs_progress_close _ => true | _ => false end.

Definition count (p : event -> bool) (t : trace) : nat :=
  List.length (filter p t).

(** A progress point that neither starts nor completes its pass. *)
Definition intermediate (c : progress_call) : bool :=
  let '(_, cur, max) := c in negb (cur =? 0) && (cur <? max).

Definition cl0 (opts : list (ascii * string)) (ops : list string) : cmdline :=
  {| argv0 := "resize2fs"; options := opts; operands := ops |}.

(** ** Notions used to state further properties *)

(** The option characters the loop of lines 156-176 takes without
    calling [usage]. *)
Definition valid_option (c : ascii) : bool :=
  Ascii.eqb c "f" || Ascii.eqb c "F" || Ascii.eqb c "d" || Ascii.eqb c "p".

(** What [usage] prints. *)
Definition usage_message (prog : string) : event :=
  Ev_fprintf stderr
    "usage: %s [-d debug_flags] [-f] [-F] [-p] device [new-size]\n\n"
    [AStr prog].

Section Meter.

Context {w : World}.

(** The discipline of a progress meter, read along a trace: [live] is
    the meter now open (0 for none).  A meter is made only when none is
    open; updates and closes go to the open meter, never to NULL; a
    close leaves no meter open.  The result is the meter open at the
    end, or [None] if the trace breaks the discipline. *)
Fixpoint meter_replay (live : Z) (t : trace) : option Z :=
  match t with
  | [] => Some live
  | Ev_ext2fs_progress_init label max :: t' =>
      if live =? 0 then
        let '(retval, p) := ext2fs_progress_init label max in
        meter_replay (if retval =? 0 then p else 0) t'
      else None
  | Ev_ext2fs_progress_update p _ :: t' =>
      if negb (p =? 0) && (p =? live) then meter_replay live t' else None
  | Ev_ext2fs_progress_close p :: t' =>
      if negb (p =? 0) && (p =? live) then meter_replay 0 t' else None
  | _ :: t' => meter_replay live t'
  end.

End Meter.

(** A progress point that starts a pass. *)
Definition starts_pass (c : progress_call) : bool :=
  let '(_, cur, max) := c in negb (max =? 0) && (cur =? 0).

(** No progress meter can be made: [ext2fs_progress_init] fails with
    error 12. *)
Definition w_no_meter : World := {|
  atoi := fun s => fst (digits s 0);
  strtoul := fun s => digits s 0;
  ext2fs_check_if_mounted := fun _ => (0, 0);
  open := fun _ _ => (3, 0);
  ioctl := fun _ _ => (0, 0);
  ext2fs_open := fun _ _ _ => (0, fs0);
  ext2fs_get_device_size := fun _ _ => (0, 1000);
  resize_fs := fun _ _ _ _ => (two_passes 1 2, 0);
  ext2fs_progress_init := fun _ _ => (12, 0)
|}.

(** A filesystem with bit 3 set in its compatible feature word, a bit
    outside [EXT2_LIB_FEATURE_COMPAT_SUPP] of [hdr0]. *)
Definition sb_compat_feature : ext2_super_block := {|
  s_blocks_count := 500;
  s_mtime := 100;
  s_lastcheck := 200;
  s_feature_compat := 8;
  s_feature_incompat := 0;
  s_feature_ro_compat := 0
|}.

Definition w_compat_feature : World :=
  world_of (0, 0) (0, {| super := sb_compat_feature; blocksize := 1024 |})
    (0, 1000) ([], 0).

(** The size of the device cannot be found: the probe fails with error
    5. *)
Definition w_size_probe_fails : World :=
  world_of (0, 0) (0, fs0) (5, 0) ([], 0).

(** * Properties *)

(** ** The monad *)

Lemma bind_ret_l {A B : Type} (a : A) (k : A -> proc B) :
  bind (ret a) k = k a.
Proof. unfold bind, ret. destruct (k a). reflexivity. Qed.

Lemma bind_assoc {A B C : Type} (m : proc A) (k : A -> proc B)
    (h : B -> proc C) :
  bind (bind m k) h = bind m (fun a => bind (k a) h).
Proof.
  destruct m as [t [a | s]]; simpl; [ | reflexivity ].
  destruct (k a) as [t' [b | s]]; simpl; [ | reflexivity ].
  destruct (h b) as [t'' o]. now rewrite app_assoc.
Qed.

Lemma bind_returns {A B : Type} (m : proc A) (k : A -> proc B) t a :
  m = (t, Returns a) ->
  bind m k = (t ++ fst (k a), snd (k a)).
Proof. intros ->. simpl. now destruct (k a). Qed.

Lemma bind_exits {A B : Type} (m : proc A) (k : A -> proc B) t s :
  m = (t, Exits s) -> bind m k = (t, Exits s).
Proof. now intros ->. Qed.

(** A sequence returns only if both halves do. *)
Lemma bind_returns_inv {A B : Type} (m : proc A) (k : A -> proc B) t b :
  bind m k = (t, Returns b) ->
  exists t1 a t2,
    m = (t1, Returns a) /\ k a = (t2, Returns b) /\ t = t1 ++ t2.
Proof.
  destruct m as [t1 [a | s]]; simpl; [ | discriminate ].
  destruct (k a) as [t2 o] eqn:E. intros [= <- ->].
  now exists t1, a, t2.
Qed.

(** A sequence exits where its first half does, or else where the second
    does. *)
Lemma bind_exits_inv {A B : Type} (m : proc A) (k : A -> proc B) t s :
  bind m k = (t, Exits s) ->
  m = (t, Exits s) \/
  exists t1 a t2,
    m = (t1, Returns a) /\ k a = (t2, Exits s) /\ t = t1 ++ t2.
Proof.
  destruct m as [t1 [a | s']]; simpl.
  - destruct (k a) as [t2 o] eqn:E. intros [= <- ->].
    right. now exists t1, a, t2.
  - intros [= <- <-]. now left.
Qed.

Lemma emit_all_spec (t : trace) : emit_all t = (t, Returns tt).
Proof.
  induction t as [ | e t IH]; [ reflexivity | ].
  simpl. now rewrite IH.
Qed.

(** ** Kinds of events in a trace *)

Lemma kinds_nil ks : kinds ks [].
Proof. constructor. Qed.

Lemma kinds_cons ks e t : In (kind_of e) ks -> kinds ks t -> kinds ks (e :: t).
Proof. now constructor. Qed.

Lemma kinds_app ks t1 t2 : kinds ks t1 -> kinds ks t2 -> kinds ks (t1 ++ t2).
Proof. intros H1 H2. apply Forall_app. now split. Qed.

Lemma kinds_incl ks ks' t : incl ks ks' -> kinds ks t -> kinds ks' t.
Proof.
  intros Hi H. unfold kinds in *. rewrite Forall_forall in *.
  intros e He. apply Hi. now apply H.
Qed.

Lemma kinds_In ks t e : kinds ks t -> In e t -> In (kind_of e) ks.
Proof. unfold kinds. rewrite Forall_forall. auto. Qed.

Lemma kinds_app_l ks t1 t2 : kinds ks (t1 ++ t2) -> kinds ks t1.
Proof. intros H. now apply Forall_app in H. Qed.

Lemma kinds_app_r ks t1 t2 : kinds ks (t1 ++ t2) -> kinds ks t2.
Proof. intros H. now apply Forall_app in H. Qed.

Create HintDb kinds.
#[local] Hint Resolve kinds_nil kinds_cons kinds_app : kinds.

Lemma engine_calls_app t1 t2 :
  engine_calls (t1 ++ t2) = (engine_calls t1 + engine_calls t2)%nat.
Proof. unfold engine_calls. now rewrite filter_app, length_app. Qed.

Lemma engine_calls_kinds ks t :
  kinds ks t -> ~ In KEngine ks -> engine_calls t = 0%nat.
Proof.
  intros H Hn. induction H as [ | e t He _ IH]; [ reflexivity | ].
  unfold engine_calls in *. simpl.
  destruct e; simpl in *; try exact IH. contradiction.
Qed.

(** Where an event sits in a trace made of two parts. *)
Lemma split_in_left (A B t1 t2 : trace) (e : event) :
  A ++ B = t1 ++ e :: t2 -> ~ In e B -> exists l, A = t1 ++ e :: l.
Proof.
  intros H Hn. apply app_eq_app in H as [l [[-> H] | [-> H]]].
  - destruct l as [ | x l].
    + simpl in H. subst B. exfalso. apply Hn. now left.
    + simpl in H. injection H as <- ->. now exists l.
  - exfalso. apply Hn. rewrite H. apply in_or_app. right. now left.
Qed.

Lemma split_in_right (A B t1 t2 : trace) (e : event) :
  A ++ B = t1 ++ e :: t2 -> ~ In e A -> exists l, t1 = A ++ l.
Proof.
  intros H Hn. apply app_eq_app in H as [l [[-> H] | [-> H]]].
  - destruct l as [ | x l].
    + exists []. now rewrite !app_nil_r.
    + simpl in H. injection H as <- ->.
      exfalso. apply Hn. apply in_or_app. right. now left.
  - now exists l.
Qed.

(** ** The steps of [main], one at a time *)

Ltac proc_unfold :=
  unfold usage, fprintf, printf, com_err, emit, exit, ret, bind in *.

Ltac solve_kinds :=
  unfold kinds;
  repeat (apply Forall_cons; [ simpl; auto 10 | ]); try apply Forall_nil.

Ltac in_list := simpl; repeat (try (left; reflexivity); right).

Ltac solve_incl :=
  let k := fresh "k" in
  let Hk := fresh "Hk" in
  intros k Hk; simpl in *; intuition.

Section Steps.

Context {hdr : Headers} {w : World}.

Lemma usage_spec (A : Type) (prog : string) :
  @usage A prog =
  ([Ev_fprintf stderr
      "usage: %s [-d debug_flags] [-f] [-F] [-p] device [new-size]\n\n"
      [AStr prog]], Exits 1).
Proof. reflexivity. Qed.

(** The option loop prints nothing unless it ends in [usage]; when it
    returns, [flags] is the OR of what the options contributed. *)
Lemma getopt_loop_spec prog opts fl fu fo :
  (exists t, getopt_loop prog opts fl fu fo = (t, Exits 1)
             /\ kinds [KMessage] t)
  \/ (exists fu' fo',
        getopt_loop prog opts fl fu fo
        = ([], Returns (combined_flags opts fl, fu', fo'))).
Proof.
  revert fl fu fo.
  induction opts as [ | [c optarg] opts IH]; intros fl fu fo.
  - right. now exists fu, fo.
  - unfold combined_flags. simpl.
    destruct (Ascii.eqb c "h") eqn:Eh.
    { left. eexists. split; [ reflexivity | solve_kinds ]. }
    destruct (Ascii.eqb c "f") eqn:Ef.
    { apply Ascii.eqb_eq in Ef. subst c. simpl. apply IH. }
    destruct (Ascii.eqb c "F") eqn:EF.
    { apply Ascii.eqb_eq in EF. subst c. simpl. apply IH. }
    destruct (Ascii.eqb c "d") eqn:Ed; [ apply IH | ].
    destruct (Ascii.eqb c "p") eqn:Ep; [ apply IH | ].
    left. eexists. split; [ reflexivity | solve_kinds ].
Qed.

Lemma parse_args_kinds cl : kinds [KMessage] (fst (parse_args cl)).
Proof.
  unfold parse_args.
  destruct (getopt_loop_spec (argv0 cl) (options cl) 0 false false)
    as [(t & -> & Hk) | (fu & fo & ->)].
  - proc_unfold. simpl. solve_kinds. exact Hk.
  - destruct (operands cl) as [ | dev [ | a [ | b rest]]];
      proc_unfold; simpl; try solve_kinds;
      destruct (strtoul a) as [v tmp]; destruct (tmp =? "")%string;
      simpl; solve_kinds.
Qed.

Lemma parse_args_exits cl t s : parse_args cl = (t, Exits s) -> s = 1.
Proof.
  unfold parse_args.
  destruct (getopt_loop_spec (argv0 cl) (options cl) 0 false false)
    as [(t' & -> & Hk) | (fu & fo & ->)].
  - proc_unfold. simpl. now intros [= _ <-].
  - destruct (operands cl) as [ | dev [ | a [ | b rest]]];
      proc_unfold; simpl; try (now intros [= _ <-]); try discriminate;
      destruct (strtoul a) as [v tmp]; destruct (tmp =? "")%string;
      simpl; try (now intros [= _ <-]); discriminate.
Qed.

(** A command line that parses: only the banner was printed, there are
    one or two operands, and the request holds what they and the options
    say. *)
Lemma parse_args_returns cl t req :
  parse_args cl = (t, Returns req) ->
  t = banner
  /\ program_name req = argv0 cl
  /\ flags req = combined_flags (options cl) 0
  /\ (operands cl = [device_name req] /\ new_size req = 0
      \/ exists a, operands cl = [device_name req; a]
                   /\ snd (strtoul a) = ""
                   /\ new_size req = blk_t (fst (strtoul a))).
Proof.
  unfold parse_args.
  destruct (getopt_loop_spec (argv0 cl) (options cl) 0 false false)
    as [(t' & -> & Hk) | (fu & fo & ->)].
  - proc_unfold. simpl. discriminate.
  - destruct (operands cl) as [ | dev [ | a [ | b rest]]];
      proc_unfold; simpl; try discriminate.
    + intros [= <- <-]. simpl. repeat split. now left.
    + destruct (strtoul a) as [v tmp] eqn:Ea.
      destruct (tmp =? "")%string eqn:Et; simpl; [ | discriminate ].
      intros [= <- <-]. simpl. repeat split. right. exists a.
      apply String.eqb_eq in Et. subst tmp. rewrite Ea. now repeat split.
    + destruct (strtoul a) as [v tmp] eqn:Ea.
      destruct (tmp =? "")%string eqn:Et; simpl; discriminate.
Qed.

(** *** [check_mount] *)

Lemma check_mount_probe_error device :
  fst (ext2fs_check_if_mounted device) <> 0 ->
  check_mount device =
  ([Ev_ext2fs_check_if_mounted device;
    Ev_com_err "ext2fs_check_if_mount" (fst (ext2fs_check_if_mounted device))
      "while determining whether %s is mounted." [AStr device]],
   Returns tt).
Proof.
  unfold check_mount. destruct (ext2fs_check_if_mounted device) as [rv mf].
  simpl. intros H. apply Z.eqb_neq in H. now rewrite H.
Qed.

Lemma check_mount_not_mounted device :
  fst (ext2fs_check_if_mounted device) = 0 ->
  Z.land (snd (ext2fs_check_if_mounted device)) EXT2_MF_MOUNTED = 0 ->
  check_mount device = ([Ev_ext2fs_check_if_mounted device], Returns tt).
Proof.
  unfold check_mount. destruct (ext2fs_check_if_mounted device) as [rv mf].
  simpl. intros -> ->. reflexivity.
Qed.

Lemma check_mount_mounted device :
  fst (ext2fs_check_if_mounted device) = 0 ->
  Z.land (snd (ext2fs_check_if_mounted device)) EXT2_MF_MOUNTED <> 0 ->
  check_mount device =
  ([Ev_ext2fs_check_if_mounted device;
    Ev_fprintf stderr "%s is mounted; can't resize a mounted filesystem!\n\n"
      [AStr device]],
   Exits 1).
Proof.
  unfold check_mount. destruct (ext2fs_check_if_mounted device) as [rv mf].
  simpl. intros -> H. apply Z.eqb_neq in H. now rewrite H.
Qed.

Lemma check_mount_kinds device :
  kinds [KMessage; KMountProbe] (fst (check_mount device)).
Proof.
  unfold check_mount. destruct (ext2fs_check_if_mounted device) as [rv mf].
  destruct (rv =? 0); [ destruct (Z.land mf EXT2_MF_MOUNTED =? 0) | ];
    simpl; solve_kinds.
Qed.

Lemma check_mount_returns device t u :
  check_mount device = (t, Returns u) ->
  mount_gate_passes device = true
  /\ exists t', t = Ev_ext2fs_check_if_mounted device :: t'.
Proof.
  unfold check_mount, mount_gate_passes.
  destruct (ext2fs_check_if_mounted device) as [rv mf].
  destruct (rv =? 0); [ destruct (Z.land mf EXT2_MF_MOUNTED =? 0) | ];
    simpl; intros [= <-]; eauto.
Qed.

Lemma check_mount_exits device t s :
  check_mount device = (t, Exits s) ->
  s = 1 /\ mount_gate_passes device = false.
Proof.
  unfold check_mount, mount_gate_passes.
  destruct (ext2fs_check_if_mounted device) as [rv mf].
  destruct (rv =? 0); [ destruct (Z.land mf EXT2_MF_MOUNTED =? 0) | ];
    simpl; intros [= <- <-] || discriminate; auto.
Qed.

(** *** The flush *)

Lemma flush_device_kinds device :
  kinds [KMessage; KFlush] (fst (flush_device device)).
Proof.
  unfold flush_device. destruct BLKFLSBUF as [request | ].
  - destruct (open device O_RDONLY) as [fd errno].
    destruct (fd <? 0); simpl; [ solve_kinds | ].
    destruct (ioctl fd request) as [r errno'].
    destruct (r <? 0); simpl; solve_kinds.
  - simpl. solve_kinds.
Qed.

Lemma flush_device_exits device t s :
  flush_device device = (t, Exits s) -> s = 1.
Proof.
  unfold flush_device. destruct BLKFLSBUF as [request | ].
  - destruct (open device O_RDONLY) as [fd errno].
    destruct (fd <? 0); simpl; [ now intros [= _ <-] | ].
    destruct (ioctl fd request) as [r errno'].
    destruct (r <? 0); simpl; [ now intros [= _ <-] | discriminate ].
  - simpl. now intros [= _ <-].
Qed.

Lemma flush_device_fails device :
  flush_fails device -> exists t, flush_device device = (t, Exits 1).
Proof.
  unfold flush_fails, flush_device. destruct BLKFLSBUF as [request | ].
  - destruct (open device O_RDONLY) as [fd errno]. simpl.
    destruct (fd <? 0) eqn:Efd; simpl; [ eauto | ].
    destruct (ioctl fd request) as [r errno']. simpl.
    destruct (r <? 0) eqn:Er; simpl; [ eauto | ].
    apply Z.ltb_ge in Efd, Er. lia.
  - simpl. eauto.
Qed.

(** *** Opening the filesystem *)

Lemma open_filesystem_kinds req :
  kinds [KMessage; KOpen] (fst (open_filesystem req)).
Proof.
  unfold open_filesystem.
  destruct (Z.land (flags req) RESIZE_DEBUG_IO =? 0); simpl;
    match goal with
    | |- context [ext2fs_open ?d ?f ?io] =>
        destruct (ext2fs_open d f io) as [rv fs]
    end;
    (destruct (rv =? 0); simpl;
     [ destruct (unsupported_features (super fs)) | ]); simpl; solve_kinds.
Qed.

Lemma open_filesystem_exits req t s :
  open_filesystem req = (t, Exits s) -> s = 1.
Proof.
  unfold open_filesystem.
  destruct (Z.land (flags req) RESIZE_DEBUG_IO =? 0); simpl;
    match goal with
    | |- context [ext2fs_open ?d ?f ?io] =>
        destruct (ext2fs_open d f io) as [rv fs]
    end;
    (destruct (rv =? 0); simpl;
     [ destruct (unsupported_features (super fs)) | ]); simpl;
    (now intros [= _ <-]) || discriminate.
Qed.

(** The filesystem [main] goes on with was handed out by a successful
    [ext2fs_open] and passed the feature test. *)
Lemma open_filesystem_returns req t fs :
  open_filesystem req = (t, Returns fs) ->
  unsupported_features (super fs) = false
  /\ exists io, ext2fs_open (device_name req) EXT2_FLAG_RW io = (0, fs)
                /\ In (Ev_ext2fs_open (device_name req) EXT2_FLAG_RW io) t.
Proof.
  unfold open_filesystem.
  destruct (Z.land (flags req) RESIZE_DEBUG_IO =? 0); simpl;
    match goal with
    | |- context [ext2fs_open ?d ?f ?io] =>
        destruct (ext2fs_open d f io) as [rv fs'] eqn:Eo
    end;
    (destruct (rv =? 0) eqn:Erv; simpl;
     [ destruct (unsupported_features (super fs')) eqn:Eu | ]); simpl;
    try discriminate;
    intros [= <- <-]; apply Z.eqb_eq in Erv; subst rv;
    (split; [ assumption | eexists; split; [ eassumption | simpl; auto ] ]).
Qed.

(** *** The size of the device *)

Lemma probe_device_size_kinds req fs :
  kinds [KMessage; KSizeProbe] (fst (probe_device_size req fs)).
Proof.
  unfold probe_device_size.
  destruct (ext2fs_get_device_size (device_name req) (blocksize fs))
    as [rv m].
  destruct (rv =? 0); simpl; solve_kinds.
Qed.

Lemma probe_device_size_exits req fs t s :
  probe_device_size req fs = (t, Exits s) -> s = 1.
Proof.
  unfold probe_device_size.
  destruct (ext2fs_get_device_size (device_name req) (blocksize fs))
    as [rv m].
  destruct (rv =? 0); simpl; (now intros [= _ <-]) || discriminate.
Qed.

Lemma blk_t_range v : 0 <= blk_t v < 2 ^ 32.
Proof. unfold blk_t. apply Z.mod_pos_bound. lia. Qed.

Lemma probe_device_size_returns req fs t max_size :
  probe_device_size req fs = (t, Returns max_size) ->
  0 <= max_size < 2 ^ 32
  /\ t = [Ev_ext2fs_get_device_size (device_name req) (blocksize fs)].
Proof.
  unfold probe_device_size.
  destruct (ext2fs_get_device_size (device_name req) (blocksize fs))
    as [rv m].
  destruct (rv =? 0); simpl; [ | discriminate ].
  intros [= <- <-]. split; [ apply blk_t_range | reflexivity ].
Qed.

(** *** The progress callback *)

Lemma resize_progress_func_kinds rfs pass cur max :
  kinds [KMessage; KProgress]
    (fst (fst (resize_progress_func rfs pass cur max))).
Proof.
  unfold resize_progress_func.
  destruct (max =? 0); [ solve_kinds | ].
  destruct (cur =? 0).
  - destruct (ext2fs_progress_init (pass_label pass) max) as [rv p].
    destruct (prog_data rfs =? 0), (rv =? 0); simpl;
      try destruct (p =? 0); destruct (max <=? cur); simpl; solve_kinds.
  - destruct (prog_data rfs =? 0), (max <=? cur); simpl; solve_kinds.
Qed.

(** The callback always returns 0: it never stops the engine. *)
Lemma resize_progress_func_returns_0 rfs pass cur max :
  snd (resize_progress_func rfs pass cur max) = 0.
Proof.
  unfold resize_progress_func.
  destruct (max =? 0); [ reflexivity | ].
  destruct (cur =? 0).
  - destruct (ext2fs_progress_init (pass_label pass) max) as [rv p].
    now destruct (max <=? cur).
  - now destruct (max <=? cur).
Qed.

Lemma run_progress_kinds calls rfs :
  kinds [KMessage; KProgress] (fst (run_progress rfs calls)).
Proof.
  revert rfs. induction calls as [ | [[pass cur] max] calls IH]; intros rfs.
  - solve_kinds.
  - simpl. pose proof (resize_progress_func_kinds rfs pass cur max) as H.
    destruct (resize_progress_func rfs pass cur max) as [[t rfs'] r].
    specialize (IH rfs').
    destruct (run_progress rfs' calls) as [t' rfs'']. simpl in *.
    now apply kinds_app.
Qed.

(** *** Lines 257-286 *)

Lemma engine_events_kinds req fs n :
  kinds [KMessage; KEngine; KProgress; KClose] (engine_events req fs n).
Proof.
  unfold engine_events.
  destruct (resize_fs fs n (flags req) (progress_requested (flags req)))
    as [calls rv].
  apply kinds_cons; [ simpl; auto | ].
  apply kinds_app.
  - destruct (progress_requested (flags req)); [ | solve_kinds ].
    eapply kinds_incl; [ | apply run_progress_kinds ].
    intros k [<- | [<- | []]]; simpl; auto.
  - destruct (rv =? 0); simpl; solve_kinds.
Qed.

Lemma engine_events_calls req fs n :
  engine_calls (engine_events req fs n) = 1%nat.
Proof.
  unfold engine_events.
  destruct (resize_fs fs n (flags req) (progress_requested (flags req)))
    as [calls rv].
  change (S (engine_calls
    ((if progress_requested (flags req)
      then fst (run_progress {| prog_data := 0 |} calls) else []) ++
     (if negb (rv =? 0)
      then [Ev_com_err (program_name req) rv "while trying to resize %s"
              [AStr (device_name req)]; Ev_ext2fs_close fs]
      else []) ++
     [Ev_fprintf stdout "The filesystem on %s is now %d blocks long.\n\n"
        [AStr (device_name req); ANum n]])) = 1%nat).
  f_equal. rewrite !engine_calls_app.
  replace (engine_calls
    (if progress_requested (flags req)
     then fst (run_progress {| prog_data := 0 |} calls) else [])) with 0%nat.
  - now destruct (rv =? 0).
  - symmetry. destruct (progress_requested (flags req)); [ | reflexivity ].
    eapply engine_calls_kinds; [ apply run_progress_kinds | ].
    simpl. intuition discriminate.
Qed.

Lemma capacity_gate_test req max_size :
  negb (force req) && (max_size <? resolved_size (new_size req) max_size)
  = false <-> capacity_gate_passes req max_size.
Proof.
  unfold capacity_gate_passes.
  destruct (force req); simpl; [ intuition | ].
  rewrite Z.ltb_ge. intuition discriminate.
Qed.

Lemma consistency_gate_test req fs :
  negb (force req) && (s_lastcheck (super fs) <? s_mtime (super fs))
  = false <-> consistency_gate_passes req fs.
Proof.
  unfold consistency_gate_passes.
  destruct (force req); simpl; [ intuition | ].
  rewrite Z.ltb_ge. intuition discriminate.
Qed.

Lemma resize_and_report_too_big req fs max_size :
  ~ capacity_gate_passes req max_size ->
  resize_and_report req fs max_size =
  ([Ev_fprintf stderr
      "The containing partition (or device) is only %d blocks.\nYou requested a new size of %d blocks.\n\n"
      [ANum max_size; ANum (resolved_size (new_size req) max_size)]],
   Exits 1).
Proof.
  intros H. rewrite <- capacity_gate_test in H.
  apply not_false_is_true in H.
  unfold resize_and_report. now rewrite H.
Qed.

Lemma resize_and_report_nothing_to_do req fs max_size :
  capacity_gate_passes req max_size ->
  resolved_size (new_size req) max_size = s_blocks_count (super fs) ->
  resize_and_report req fs max_size =
  ([Ev_fprintf stderr
      "The filesystem is already %d blocks long.  Nothing to do!\n\n"
      [ANum (resolved_size (new_size req) max_size)]],
   Exits 0).
Proof.
  intros H E. rewrite <- capacity_gate_test in H.
  unfold resize_and_report. rewrite H.
  apply Z.eqb_eq in E. now rewrite E.
Qed.

Lemma resize_and_report_needs_check req fs max_size :
  capacity_gate_passes req max_size ->
  resolved_size (new_size req) max_size <> s_blocks_count (super fs) ->
  ~ consistency_gate_passes req fs ->
  resize_and_report req fs max_size =
  ([Ev_fprintf stderr "Please run 'e2fsck -f %s' first.\n\n"
      [AStr (device_name req)]],
   Exits 1).
Proof.
  intros H E C. rewrite <- capacity_gate_test in H.
  rewrite <- consistency_gate_test in C. apply not_false_is_true in C.
  unfold resize_and_report. rewrite H.
  apply Z.eqb_neq in E. now rewrite E, C.
Qed.

Lemma resize_and_report_engine req fs max_size :
  capacity_gate_passes req max_size ->
  resolved_size (new_size req) max_size <> s_blocks_count (super fs) ->
  consistency_gate_passes req fs ->
  resize_and_report req fs max_size =
  (engine_events req fs (resolved_size (new_size req) max_size), Returns 0).
Proof.
  intros H E C. rewrite <- capacity_gate_test in H.
  rewrite <- consistency_gate_test in C.
  unfold resize_and_report, engine_events. rewrite H.
  apply Z.eqb_neq in E. rewrite E, C.
  destruct (resize_fs fs (resolved_size (new_size req) max_size) (flags req)
              (progress_requested (flags req))) as [calls rv].
  destruct (progress_requested (flags req)), (rv =? 0); simpl;
    rewrite ?emit_all_spec; simpl; rewrite ?app_nil_r; reflexivity.
Qed.

Lemma capacity_gate_decide req max_size :
  capacity_gate_passes req max_size \/ ~ capacity_gate_passes req max_size.
Proof.
  rewrite <- capacity_gate_test.
  destruct (negb (force req)
            && (max_size <? resolved_size (new_size req) max_size));
    [ right; discriminate | now left ].
Qed.

Lemma consistency_gate_decide req fs :
  consistency_gate_passes req fs \/ ~ consistency_gate_passes req fs.
Proof.
  rewrite <- consistency_gate_test.
  destruct (negb (force req)
            && (s_lastcheck (super fs) <? s_mtime (super fs)));
    [ right; discriminate | now left ].
Qed.

(** The four ways lines 257-286 can go. *)
Lemma resize_and_report_cases req fs max_size :
  let n := resolved_size (new_size req) max_size in
  (~ capacity_gate_passes req max_size
   /\ exists e, resize_and_report req fs max_size = ([e], Exits 1)
                /\ kind_of e = KMessage)
  \/ (capacity_gate_passes req max_size
      /\ n = s_blocks_count (super fs)
      /\ exists e, resize_and_report req fs max_size = ([e], Exits 0)
                   /\ kind_of e = KMessage)
  \/ (capacity_gate_passes req max_size
      /\ n <> s_blocks_count (super fs)
      /\ ~ consistency_gate_passes req fs
      /\ exists e, resize_and_report req fs max_size = ([e], Exits 1)
                   /\ kind_of e = KMessage)
  \/ (capacity_gate_passes req max_size
      /\ n <> s_blocks_count (super fs)
      /\ consistency_gate_passes req fs
      /\ resize_and_report req fs max_size
         = (engine_events req fs n, Returns 0)).
Proof.
  intros n.
  destruct (capacity_gate_decide req max_size) as [Hc | Hc].
  2: { left. split; [ assumption | ].
       eexists. split;
         [ now apply resize_and_report_too_big | reflexivity ]. }
  right.
  destruct (Z.eq_dec n (s_blocks_count (super fs))) as [He | He].
  { left. repeat split; try assumption.
    eexists. split;
      [ now apply resize_and_report_nothing_to_do | reflexivity ]. }
  right.
  destruct (consistency_gate_decide req fs) as [Hk | Hk].
  - right. repeat split; try assumption.
    now apply resize_and_report_engine.
  - left. repeat split; try assumption.
    eexists. split;
      [ now apply resize_and_report_needs_check | reflexivity ].
Qed.

Lemma resize_and_report_kinds req fs max_size :
  kinds [KMessage; KEngine; KProgress; KClose]
    (fst (resize_and_report req fs max_size)).
Proof.
  destruct (resize_and_report_cases req fs max_size)
    as [(_ & e & -> & He) | [(_ & _ & e & -> & He)
       | [(_ & _ & _ & e & -> & He) | (_ & _ & _ & ->)]]]; simpl;
    try (apply kinds_cons; [ rewrite He; simpl; auto | apply kinds_nil ]).
  apply engine_events_kinds.
Qed.

(** The only engine call among [engine_events] is the first event. *)
Lemma engine_events_In req fs n fs' n' fl cb :
  In (Ev_resize_fs fs' n' fl cb) (engine_events req fs n) ->
  fs' = fs /\ n' = n /\ fl = flags req
  /\ cb = progress_requested (flags req).
Proof.
  unfold engine_events.
  destruct (resize_fs fs n (flags req) (progress_requested (flags req)))
    as [calls rv].
  intros [H | H].
  - now injection H as <- <- <- <-.
  - exfalso. apply in_app_or in H as [H | H].
    + destruct (progress_requested (flags req)); [ | destruct H ].
      apply (kinds_In _ _ _ (run_progress_kinds _ _)) in H.
      simpl in H. intuition discriminate.
    + destruct (rv =? 0); simpl in H;
        intuition discriminate.
Qed.

(** *** The steps put together *)

Lemma main_after_mount cl :
  main cl =
  (req <- parse_args cl ;;
   check_mount (device_name req) ;;
   after_mount req).
Proof. reflexivity. Qed.

Lemma main_preflight cl :
  main cl =
  ('(req, fs, max_size) <- preflight cl ;;
   resize_and_report req fs max_size).
Proof.
  unfold main, preflight.
  destruct (parse_args cl) as [t0 [req | s]]; simpl; [ | reflexivity ].
  destruct (check_mount (device_name req)) as [t1 [[] | s]]; simpl;
    [ | reflexivity ].
  destruct (flush_if_requested req)
    as [t2 [[] | s]]; simpl; [ | reflexivity ].
  destruct (open_filesystem req) as [t3 [fs | s]]; simpl; [ | reflexivity ].
  destruct (probe_device_size req fs) as [t4 [max_size | s]]; simpl;
    [ | reflexivity ].
  destruct (resize_and_report req fs max_size) as [t5 o].
  now rewrite !app_nil_r, <- !app_assoc.
Qed.

Lemma flush_step_kinds req :
  kinds [KMessage; KFlush]
    (fst (flush_if_requested req)).
Proof.
  unfold flush_if_requested.
  destruct (flush req); [ apply flush_device_kinds | solve_kinds ].
Qed.

Lemma flush_step_exits req t s :
  flush_if_requested req
  = (t, Exits s) -> s = 1.
Proof.
  unfold flush_if_requested.
  destruct (flush req); [ apply flush_device_exits | discriminate ].
Qed.

(** What is known when [preflight] returns. *)
Lemma preflight_returns cl t req fs max_size :
  preflight cl = (t, Returns (req, fs, max_size)) ->
  exists t1 t2 t3 t4,
    parse_args cl = (banner, Returns req)
    /\ check_mount (device_name req) = (t1, Returns tt)
    /\ flush_if_requested req
       = (t2, Returns tt)
    /\ open_filesystem req = (t3, Returns fs)
    /\ probe_device_size req fs = (t4, Returns max_size)
    /\ t = banner ++ t1 ++ t2 ++ t3 ++ t4.
Proof.
  unfold preflight. intros H.
  apply bind_returns_inv in H as (t0 & req' & r0 & Hp & H & ->).
  apply bind_returns_inv in H as (t1 & [] & r1 & Hm & H & ->).
  apply bind_returns_inv in H as (t2 & [] & r2 & Hf & H & ->).
  apply bind_returns_inv in H as (t3 & fs' & r3 & Ho & H & ->).
  apply bind_returns_inv in H as (t4 & m' & r4 & Hs & H & ->).
  injection H as <- <- <- <-.
  destruct (parse_args_returns _ _ _ Hp) as (-> & _).
  exists t1, t2, t3, t4. rewrite app_nil_r. now repeat split.
Qed.

Lemma bind_kinds {A B : Type} ks (m : proc A) (k : A -> proc B) :
  kinds ks (fst m) -> (forall a, kinds ks (fst (k a))) ->
  kinds ks (fst (bind m k)).
Proof.
  intros Hm Hk. destruct m as [t [a | s]]; simpl in *; [ | assumption ].
  specialize (Hk a). destruct (k a) as [t' o]. now apply kinds_app.
Qed.

Lemma preflight_kinds cl :
  kinds [KMessage; KMountProbe; KFlush; KOpen; KSizeProbe]
    (fst (preflight cl)).
Proof.
  unfold preflight.
  apply bind_kinds;
    [ eapply kinds_incl; [ | apply parse_args_kinds ]; solve_incl | ].
  intros req. apply bind_kinds;
    [ eapply kinds_incl; [ | apply check_mount_kinds ]; solve_incl | ].
  intros _. apply bind_kinds;
    [ eapply kinds_incl; [ | apply flush_step_kinds ]; solve_incl | ].
  intros _. apply bind_kinds;
    [ eapply kinds_incl; [ | apply open_filesystem_kinds ]; solve_incl | ].
  intros fs. apply bind_kinds;
    [ eapply kinds_incl; [ | apply probe_device_size_kinds ]; solve_incl | ].
  intros m. apply kinds_nil.
Qed.

(** Whatever stops the run before the size is settled gives status 1. *)
Lemma preflight_exits cl t s : preflight cl = (t, Exits s) -> s = 1.
Proof.
  unfold preflight. intros H.
  apply bind_exits_inv in H as [H | (t0 & req & r0 & _ & H & _)];
    [ now apply parse_args_exits in H | ].
  apply bind_exits_inv in H as [H | (t1 & [] & r1 & _ & H & _)];
    [ now apply check_mount_exits in H | ].
  apply bind_exits_inv in H as [H | (t2 & [] & r2 & _ & H & _)];
    [ now apply flush_step_exits in H | ].
  apply bind_exits_inv in H as [H | (t3 & fs & r3 & _ & H & _)];
    [ now apply open_filesystem_exits in H | ].
  apply bind_exits_inv in H as [H | (t4 & m & r4 & _ & H & _)];
    [ now apply probe_device_size_exits in H | discriminate ].
Qed.

(** A run either stops in the preflight with status 1, or goes through
    lines 257-286 with what the preflight found. *)
Lemma main_cases cl :
  (exists t, preflight cl = (t, Exits 1) /\ main cl = (t, Exits 1))
  \/ (exists t req fs max_size,
        preflight cl = (t, Returns (req, fs, max_size))
        /\ main cl = (t ++ fst (resize_and_report req fs max_size),
                      snd (resize_and_report req fs max_size))).
Proof.
  rewrite main_preflight.
  destruct (preflight cl) as [t [[[req fs] m] | s]] eqn:E.
  - right. exists t, req, fs, m. split; [ reflexivity | ].
    simpl. now destruct (resize_and_report req fs m).
  - left. exists t. apply preflight_exits in E as ->. now split.
Qed.

Lemma main_run cl t req fs max_size :
  preflight cl = (t, Returns (req, fs, max_size)) ->
  main cl = (t ++ fst (resize_and_report req fs max_size),
             snd (resize_and_report req fs max_size)).
Proof.
  intros H. rewrite main_preflight, H. simpl.
  now destruct (resize_and_report req fs max_size).
Qed.

(** Every call of the engine a run makes comes from line 276, after the
    preflight and the three tests of lines 259-275, with the arguments
    computed there. *)
Lemma engine_call_inv cl fs n fl cb :
  In (Ev_resize_fs fs n fl cb) (events (main cl)) ->
  exists t req max_size,
    preflight cl = (t, Returns (req, fs, max_size))
    /\ capacity_gate_passes req max_size
    /\ n = resolved_size (new_size req) max_size
    /\ n <> s_blocks_count (super fs)
    /\ consistency_gate_passes req fs
    /\ fl = flags req
    /\ cb = progress_requested (flags req)
    /\ main cl = (t ++ engine_events req fs n, Returns 0).
Proof.
  intros H. unfold events in H.
  pose proof (preflight_kinds cl) as Hk.
  destruct (main_cases cl) as [(t & Hp & Hm) | (t & req & fs' & m & Hp & Hm)];
    rewrite Hm in H; rewrite Hp in Hk; simpl in H, Hk.
  { apply (kinds_In _ _ _ Hk) in H. simpl in H. intuition discriminate. }
  apply in_app_or in H as [H | H].
  { apply (kinds_In _ _ _ Hk) in H. simpl in H. intuition discriminate. }
  destruct (resize_and_report_cases req fs' m)
    as [(_ & e & E & He) | [(_ & _ & e & E & He)
       | [(_ & _ & _ & e & E & He) | (Hc & Hn & Hs & E)]]];
    rewrite E in H; simpl in H;
    try (destruct H as [-> | []]; simpl in He; discriminate).
  apply engine_events_In in H as (-> & -> & -> & ->).
  exists t, req, m. rewrite Hm, E. simpl. now repeat split.
Qed.

(** The trace of any run, cut at the borders of its steps: options and
    operands, the mount test, the flush, and everything from
    [ext2fs_open] on.  Once anything follows the first part, the mount
    probe has been made. *)
Lemma main_split cl :
  exists tp tm tf tr,
    events (main cl) = tp ++ tm ++ tf ++ tr
    /\ kinds [KMessage] tp
    /\ kinds [KMessage; KMountProbe] tm
    /\ kinds [KMessage; KFlush] tf
    /\ kinds [KMessage; KOpen; KSizeProbe; KEngine; KProgress; KClose] tr
    /\ ((tm = [] /\ tf = [] /\ tr = [])
        \/ exists device t', tm = Ev_ext2fs_check_if_mounted device :: t').
Proof.
  unfold main, events.
  pose proof (parse_args_kinds cl) as Kp.
  destruct (parse_args cl) as [tp [req | s]]; simpl in *.
  2: { exists tp, [], [], []. rewrite !app_nil_r.
       repeat split; auto with kinds. }
  pose proof (check_mount_kinds (device_name req)) as Km.
  destruct (check_mount (device_name req)) as [tm [[] | s]] eqn:Em;
    simpl in *.
  2: { exists tp, tm, [], []. rewrite !app_nil_r.
       repeat split; auto with kinds.
       right. unfold check_mount in Em.
       destruct (ext2fs_check_if_mounted (device_name req)) as [rv mf].
       destruct (rv =? 0); [ destruct (Z.land mf EXT2_MF_MOUNTED =? 0) | ];
         simpl in Em; injection Em as <- _ || discriminate Em; eauto. }
  apply check_mount_returns in Em as [_ (t' & ->)].
  pose proof (flush_step_kinds req) as Kf.
  destruct (flush_if_requested req)
    as [tf [[] | s]]; simpl in *.
  2: { exists tp, (Ev_ext2fs_check_if_mounted (device_name req) :: t'), tf, [].
       rewrite !app_nil_r. repeat split; eauto with kinds. }
  assert (Kr : kinds [KMessage; KOpen; KSizeProbe; KEngine; KProgress; KClose]
                 (fst (fs <- open_filesystem req ;;
                       max_size <- probe_device_size req fs ;;
                       resize_and_report req fs max_size))).
  { apply bind_kinds;
      [ eapply kinds_incl; [ | apply open_filesystem_kinds ]; solve_incl | ].
    intros fs. apply bind_kinds;
      [ eapply kinds_incl; [ | apply probe_device_size_kinds ]; solve_incl | ].
    intros m. eapply kinds_incl; [ | apply resize_and_report_kinds ].
    solve_incl. }
  destruct (fs <- open_filesystem req ;;
            max_size <- probe_device_size req fs ;;
            resize_and_report req fs max_size) as [tr o]; simpl in *.
  exists tp, (Ev_ext2fs_check_if_mounted (device_name req) :: t'), tf, tr.
  repeat split; eauto with kinds.
Qed.

End Steps.

(** * The claims *)

(** ** C1: a failing engine *)

(** C1 (the code departs from the claim).  In every run in which
    [resize_fs] is called and returns an error, the program does report
    the error with the device name and does call [ext2fs_close], but it
    then goes on to print the message that gives the new size and ends
    with status 0: after line 282 there is no [exit(1)], so line 284 and
    the [return (0)] of line 286 are reached. *)
Theorem engine_failure_ends_with_success_report {hdr : Headers} {w : World}
    (cl : cmdline) (fs : ext2_filsys) (n fl : Z) (cb : bool) :
  In (Ev_resize_fs fs n fl cb) (events (main cl)) ->
  snd (resize_fs fs n fl cb) <> 0 ->
  exists t req,
    events (main cl) =
      t ++ [Ev_com_err (program_name req) (snd (resize_fs fs n fl cb))
              "while trying to resize %s" [AStr (device_name req)];
            Ev_ext2fs_close fs;
            Ev_fprintf stdout
              "The filesystem on %s is now %d blocks long.\n\n"
              [AStr (device_name req); ANum n]]
    /\ exit_status (main cl) = 0.
Proof.
  intros Hin Hrv.
  apply engine_call_inv in Hin
    as (t & req & m & _ & _ & _ & _ & _ & -> & -> & Hm).
  unfold events, exit_status. rewrite Hm. simpl.
  unfold engine_events.
  destruct (resize_fs fs n (flags req) (progress_requested (flags req)))
    as [calls rv]. simpl in *.
  apply Z.eqb_neq in Hrv. rewrite Hrv. simpl.
  exists (t ++ Ev_resize_fs fs n (flags req) (progress_requested (flags req))
            :: (if progress_requested (flags req)
                then fst (run_progress {| prog_data := 0 |} calls) else [])),
    req.
  split; [ | reflexivity ].
  rewrite <- app_assoc. simpl. reflexivity.
Qed.

(** The theorem on a device of 1000 blocks whose resize fails with
    error 12. *)
Lemma engine_failure_ends_with_success_report_witness :
  exists t req,
    events (@main hdr0 w_engine_fails (cl0 [] ["/dev/hda1"])) =
      t ++ [Ev_com_err (program_name req) 12
              "while trying to resize %s" [AStr (device_name req)];
            Ev_ext2fs_close fs0;
            Ev_fprintf stdout
              "The filesystem on %s is now %d blocks long.\n\n"
              [AStr (device_name req); ANum 1000]]
    /\ exit_status (@main hdr0 w_engine_fails (cl0 [] ["/dev/hda1"])) = 0.
Proof.
  apply (@engine_failure_ends_with_success_report hdr0 w_engine_fails
           (cl0 [] ["/dev/hda1"]) fs0 1000 0 false).
  - vm_compute. in_list.
  - vm_compute. discriminate.
Defined.

(** ** C2: a failing mount probe *)

(** C2, as stated, fails: with a mount probe that returns error 2 on an
    otherwise healthy device, the error is reported, and then the
    filesystem is opened, the engine is called and the run ends with
    status 0. *)
Lemma probe_error_run_reaches_engine :
  fst (@ext2fs_check_if_mounted w_probe_fails "/dev/hda1") = 2
  /\ events (@main hdr0 w_probe_fails (cl0 [] ["/dev/hda1"])) =
       @banner hdr0
       ++ [Ev_ext2fs_check_if_mounted "/dev/hda1";
           Ev_com_err "ext2fs_check_if_mount" 2
             "while determining whether %s is mounted." [AStr "/dev/hda1"];
           Ev_ext2fs_open "/dev/hda1" 1 unix_io_manager;
           Ev_ext2fs_get_device_size "/dev/hda1" 1024;
           Ev_resize_fs fs0 1000 0 false;
           Ev_fprintf stdout "The filesystem on %s is now %d blocks long.\n\n"
             [AStr "/dev/hda1"; ANum 1000]]
  /\ exit_status (@main hdr0 w_probe_fails (cl0 [] ["/dev/hda1"])) = 0.
Proof. repeat split. Qed.

(** C2, amended.  In every run in which probing the mount state returns
    an error, [check_mount] reports the error with the device name and
    returns: the run goes on with lines 198-286 (flush, open, feature
    test, size probe, size tests, engine), and its trace and outcome are
    those of these lines appended to the report. *)
Theorem probe_error_is_reported_and_run_goes_on {hdr : Headers} {w : World}
    (cl : cmdline) (t : trace) (req : request) :
  parse_args cl = (t, Returns req) ->
  fst (ext2fs_check_if_mounted (device_name req)) <> 0 ->
  main cl =
  (t ++ [Ev_ext2fs_check_if_mounted (device_name req);
         Ev_com_err "ext2fs_check_if_mount"
           (fst (ext2fs_check_if_mounted (device_name req)))
           "while determining whether %s is mounted."
           [AStr (device_name req)]]
     ++ fst (after_mount req),
   snd (after_mount req)).
Proof.
  intros Hp He. rewrite main_after_mount.
  rewrite (bind_returns _ _ _ _ Hp). cbv beta.
  rewrite (bind_returns _ _ _ _ (check_mount_probe_error _ He)).
  reflexivity.
Qed.

(** The theorem on a run whose mount probe fails with error 2. *)
Lemma probe_error_is_reported_and_run_goes_on_witness :
  @main hdr0 w_probe_fails (cl0 [] ["/dev/hda1"]) =
  (@banner hdr0
     ++ [Ev_ext2fs_check_if_mounted "/dev/hda1";
         Ev_com_err "ext2fs_check_if_mount" 2
           "while determining whether %s is mounted." [AStr "/dev/hda1"]]
     ++ [Ev_ext2fs_open "/dev/hda1" 1 unix_io_manager;
         Ev_ext2fs_get_device_size "/dev/hda1" 1024;
         Ev_resize_fs fs0 1000 0 false;
         Ev_fprintf stdout "The filesystem on %s is now %d blocks long.\n\n"
           [AStr "/dev/hda1"; ANum 1000]],
   Returns 0).
Proof.
  apply (@probe_error_is_reported_and_run_goes_on hdr0 w_probe_fails
           (cl0 [] ["/dev/hda1"]) (@banner hdr0)
           {| program_name := "resize2fs"; device_name := "/dev/hda1";
              new_size := 0; flags := 0; flush := false; force := false |}).
  - reflexivity.
  - vm_compute. discriminate.
Defined.

(** ** C3: a requested size beyond the device *)

(** C3, as stated, fails in its second half: with [-f], a requested size
    of 1500 blocks on a device of 1000 blocks whose filesystem already
    has 1500 blocks, the run stops at line 266 and the engine is not
    called. *)
Lemma forced_oversize_equal_to_current_skips_engine :
  exists t,
    @preflight hdr0 w_fs_larger_than_device
      (cl0 [("f"%char, "")] ["/dev/hda1"; "1500"])
    = (t, Returns
            ({| program_name := "resize2fs"; device_name := "/dev/hda1";
                new_size := 1500; flags := 0; flush := false;
                force := true |},
             {| super := sb_1500; blocksize := 1024 |}, 1000))
    /\ @main hdr0 w_fs_larger_than_device
         (cl0 [("f"%char, "")] ["/dev/hda1"; "1500"])
       = (t ++ [Ev_fprintf stderr
                  "The filesystem is already %d blocks long.  Nothing to do!\n\n"
                  [ANum 1500]],
          Exits 0)
    /\ engine_calls
         (events (@main hdr0 w_fs_larger_than_device
                    (cl0 [("f"%char, "")] ["/dev/hda1"; "1500"]))) = 0%nat.
Proof. eexists. repeat split. Qed.

(** C3, amended.  Take a run that got as far as the size tests with a
    requested size strictly greater than the probed capacity.  Without
    the force flag it stops with status 1 after a message that carries
    the capacity and the requested size, and the engine is not called.
    With the force flag, and a requested size different from the current
    block count of the filesystem, the engine is called exactly once, with
    exactly the requested size. *)
Theorem oversize_request {hdr : Headers} {w : World}
    (cl : cmdline) (t : trace) (req : request) (fs : ext2_filsys)
    (max_size : Z) :
  preflight cl = (t, Returns (req, fs, max_size)) ->
  max_size < new_size req ->
  (force req = false ->
   main cl =
     (t ++ [Ev_fprintf stderr
              "The containing partition (or device) is only %d blocks.\nYou requested a new size of %d blocks.\n\n"
              [ANum max_size; ANum (new_size req)]],
      Exits 1)
   /\ engine_calls (events (main cl)) = 0%nat)
  /\ (force req = true ->
      new_size req <> s_blocks_count (super fs) ->
      main cl = (t ++ engine_events req fs (new_size req), Returns 0)
      /\ (exists t',
            engine_events req fs (new_size req) =
            Ev_resize_fs fs (new_size req) (flags req)
              (progress_requested (flags req)) :: t')
      /\ engine_calls (events (main cl)) = 1%nat).
Proof.
  intros Hp Hgt.
  assert (Hk : engine_calls t = 0%nat).
  { pose proof (preflight_kinds cl) as K. rewrite Hp in K.
    eapply engine_calls_kinds; [ exact K | ].
    simpl. intuition discriminate. }
  assert (Hn : resolved_size (new_size req) max_size = new_size req).
  { destruct (preflight_returns _ _ _ _ _ Hp)
      as (t1 & t2 & t3 & t4 & _ & _ & _ & _ & Hs & _).
    apply probe_device_size_returns in Hs as [Hr _].
    unfold resolved_size.
    destruct (new_size req =? 0) eqn:E; [ | reflexivity ].
    apply Z.eqb_eq in E. lia. }
  rewrite (main_run _ _ _ _ _ Hp). unfold events. split.
  - intros Hf. rewrite resize_and_report_too_big.
    + rewrite Hn. simpl. split; [ reflexivity | ].
      rewrite engine_calls_app, Hk. reflexivity.
    + unfold capacity_gate_passes. rewrite Hn, Hf.
      intros [H | H]; [ discriminate | lia ].
  - intros Hf Hne. rewrite resize_and_report_engine.
    + rewrite Hn. simpl. split; [ reflexivity | ]. split.
      * unfold engine_events.
        destruct (resize_fs fs (new_size req) (flags req)
                    (progress_requested (flags req))) as [calls rv].
        eexists. reflexivity.
      * rewrite engine_calls_app, Hk, engine_events_calls. reflexivity.
    + now left.
    + now rewrite Hn.
    + now left.
Qed.

(** The theorem on a request for 1500 blocks on a device of 1000
    blocks, without and with [-f]. *)
Lemma oversize_request_witness :
  (@main hdr0 w0 (cl0 [] ["/dev/hda1"; "1500"]) =
     ((@banner hdr0
         ++ [Ev_ext2fs_check_if_mounted "/dev/hda1";
             Ev_ext2fs_open "/dev/hda1" 1 unix_io_manager;
             Ev_ext2fs_get_device_size "/dev/hda1" 1024])
        ++ [Ev_fprintf stderr
              "The containing partition (or device) is only %d blocks.\nYou requested a new size of %d blocks.\n\n"
              [ANum 1000; ANum 1500]],
      Exits 1)
   /\ engine_calls (events (@main hdr0 w0 (cl0 [] ["/dev/hda1"; "1500"])))
      = 0%nat)
  /\ (@main hdr0 w0 (cl0 [("f"%char, "")] ["/dev/hda1"; "1500"]) =
        ((@banner hdr0
            ++ [Ev_ext2fs_check_if_mounted "/dev/hda1";
                Ev_ext2fs_open "/dev/hda1" 1 unix_io_manager;
                Ev_ext2fs_get_device_size "/dev/hda1" 1024])
           ++ [Ev_resize_fs fs0 1500 0 false;
               Ev_fprintf stdout
                 "The filesystem on %s is now %d blocks long.\n\n"
                 [AStr "/dev/hda1"; ANum 1500]],
         Returns 0)
      /\ engine_calls
           (events (@main hdr0 w0 (cl0 [("f"%char, "")] ["/dev/hda1"; "1500"])))
         = 1%nat).
Proof.
  split.
  - apply (proj1 (@oversize_request hdr0 w0 (cl0 [] ["/dev/hda1"; "1500"])
             (@banner hdr0
                ++ [Ev_ext2fs_check_if_mounted "/dev/hda1";
                    Ev_ext2fs_open "/dev/hda1" 1 unix_io_manager;
                    Ev_ext2fs_get_device_size "/dev/hda1" 1024])
             {| program_name := "resize2fs"; device_name := "/dev/hda1";
                new_size := 1500; flags := 0; flush := false;
                force := false |}
             fs0 1000 eq_refl eq_refl)).
    reflexivity.
  - destruct (proj2 (@oversize_request hdr0 w0
             (cl0 [("f"%char, "")] ["/dev/hda1"; "1500"])
             (@banner hdr0
                ++ [Ev_ext2fs_check_if_mounted "/dev/hda1";
                    Ev_ext2fs_open "/dev/hda1" 1 unix_io_manager;
                    Ev_ext2fs_get_device_size "/dev/hda1" 1024])
             {| program_name := "resize2fs"; device_name := "/dev/hda1";
                new_size := 1500; flags := 0; flush := false;
                force := true |}
             fs0 1000 eq_refl eq_refl)) as (H1 & _ & H3).
    + reflexivity.
    + vm_compute. discriminate.
    + split; [ exact H1 | exact H3 ].
Defined.

(** ** C4: the target equals the current size *)

(** C4, as stated, fails: without [-f], a requested size of 1500 blocks
    on a device of 1000 blocks whose filesystem already has 1500 blocks
    resolves a target equal to the current block count, and the run
    stops at the size test of line 259, which comes before the
    comparison of line 266: it reports the two sizes and exits with
    status 1. *)
Lemma unforced_oversize_equal_to_current_exits_1 :
  exists t,
    @preflight hdr0 w_fs_larger_than_device (cl0 [] ["/dev/hda1"; "1500"])
    = (t, Returns
            ({| program_name := "resize2fs"; device_name := "/dev/hda1";
                new_size := 1500; flags := 0; flush := false;
                force := false |},
             {| super := sb_1500; blocksize := 1024 |}, 1000))
    /\ resolved_size 1500 1000 = s_blocks_count sb_1500
    /\ @main hdr0 w_fs_larger_than_device (cl0 [] ["/dev/hda1"; "1500"])
       = (t ++ [Ev_fprintf stderr
                  "The containing partition (or device) is only %d blocks.\nYou requested a new size of %d blocks.\n\n"
                  [ANum 1000; ANum 1500]],
          Exits 1)
    /\ exit_status
         (@main hdr0 w_fs_larger_than_device (cl0 [] ["/dev/hda1"; "1500"]))
       = 1.
Proof. eexists. repeat split. Qed.

(** C4, amended.  In every run in which the resolved target size equals
    the current block count of the filesystem and the size test of line
    259 lets that target pass (the force flag is set, or the target is
    not larger than the probed size of the device), the program prints
    the nothing-to-do message and exits with status 0; the engine is
    never called, and neither is [ext2fs_close]. *)
Theorem equal_size_exits_0_without_engine {hdr : Headers} {w : World}
    (cl : cmdline) (t : trace) (req : request) (fs : ext2_filsys)
    (max_size : Z) :
  preflight cl = (t, Returns (req, fs, max_size)) ->
  capacity_gate_passes req max_size ->
  resolved_size (new_size req) max_size = s_blocks_count (super fs) ->
  main cl =
    (t ++ [Ev_fprintf stderr
             "The filesystem is already %d blocks long.  Nothing to do!\n\n"
             [ANum (s_blocks_count (super fs))]],
     Exits 0)
  /\ exit_status (main cl) = 0
  /\ engine_calls (events (main cl)) = 0%nat
  /\ kinds [KMessage; KMountProbe; KFlush; KOpen; KSizeProbe]
       (events (main cl)).
Proof.
  intros Hp Hc He.
  pose proof (preflight_kinds cl) as K. rewrite Hp in K. simpl in K.
  assert (Hm : main cl =
    (t ++ [Ev_fprintf stderr
             "The filesystem is already %d blocks long.  Nothing to do!\n\n"
             [ANum (s_blocks_count (super fs))]], Exits 0)).
  { rewrite (main_run _ _ _ _ _ Hp).
    rewrite (resize_and_report_nothing_to_do _ _ _ Hc He). simpl.
    now rewrite He. }
  assert (Hk : kinds [KMessage; KMountProbe; KFlush; KOpen; KSizeProbe]
                 (events (main cl))).
  { rewrite Hm. unfold events. simpl. apply kinds_app; [ exact K | ].
    solve_kinds. }
  split; [ exact Hm | ]. split; [ now rewrite Hm | ].
  split; [ | exact Hk ].
  eapply engine_calls_kinds; [ exact Hk | ].
  simpl. intuition discriminate.
Qed.

(** The theorem on a request for the 500 blocks the filesystem
    already has. *)
Lemma equal_size_exits_0_without_engine_witness :
  exit_status (@main hdr0 w0 (cl0 [] ["/dev/hda1"; "500"])) = 0
  /\ engine_calls (events (@main hdr0 w0 (cl0 [] ["/dev/hda1"; "500"])))
     = 0%nat.
Proof.
  destruct (@equal_size_exits_0_without_engine hdr0 w0
              (cl0 [] ["/dev/hda1"; "500"])
              (@banner hdr0
                 ++ [Ev_ext2fs_check_if_mounted "/dev/hda1";
                     Ev_ext2fs_open "/dev/hda1" 1 unix_io_manager;
                     Ev_ext2fs_get_device_size "/dev/hda1" 1024])
              {| program_name := "resize2fs"; device_name := "/dev/hda1";
                 new_size := 500; flags := 0; flush := false;
                 force := false |}
              fs0 1000 eq_refl)
    as (_ & H1 & H2 & _).
  - right. vm_compute. discriminate.
  - reflexivity.
  - split; [ exact H1 | exact H2 ].
Defined.

(** ** C5: where the flush sits *)

(** C5, as stated, fails: with [-F] and an [ext2fs_open] that returns an
    error, the device is flushed all the same; the flush comes before
    the attempt to open the filesystem, and no size is ever probed or
    resolved in this run. *)
Lemma flush_happens_before_filesystem_is_opened :
  @main hdr0 w_open_fails (cl0 [("F"%char, "")] ["/dev/hda1"]) =
  (@banner hdr0
     ++ [Ev_ext2fs_check_if_mounted "/dev/hda1";
         Ev_open "/dev/hda1" 0;
         Ev_ioctl 3 4705;
         Ev_close 3;
         Ev_ext2fs_open "/dev/hda1" 1 unix_io_manager;
         Ev_com_err "resize2fs" 2 "while trying to open %s"
           [AStr "/dev/hda1"];
         Ev_fprintf stdout "Couldn't find valid filesystem superblock.\n" []],
   Exits 1).
Proof. reflexivity. Qed.

(** C5, amended.  In every run, whatever precedes the flush [ioctl] is a
    message, the mount probe or the opening of the device for the flush;
    the mount probe is among it.  So the flush comes after the mount
    test and before [ext2fs_open], the size probe, the size tests and the
    engine.  And when the flush was asked for and fails, after a mount
    test that let the run through, the run ends with status 1 without
    having called any of those. *)
Theorem flush_after_mount_test_before_open {hdr : Headers} {w : World}
    (cl : cmdline) :
  (forall t1 fd request t2,
     events (main cl) = t1 ++ Ev_ioctl fd request :: t2 ->
     (exists device, In (Ev_ext2fs_check_if_mounted device) t1)
     /\ kinds [KMessage; KMountProbe; KFlush] t1)
  /\ (forall t req t1,
        parse_args cl = (t, Returns req) ->
        check_mount (device_name req) = (t1, Returns tt) ->
        flush req = true ->
        flush_fails (device_name req) ->
        exit_status (main cl) = 1
        /\ kinds [KMessage; KMountProbe; KFlush] (events (main cl))).
Proof.
  split.
  - intros t1 fd request t2 H.
    destruct (main_split cl) as (tp & tm & tf & tr & E & Kp & Km & Kf & Kr & Hm).
    rewrite E in H.
    assert (Hnr : ~ In (Ev_ioctl fd request) tr).
    { intros Hin. apply (kinds_In _ _ _ Kr) in Hin. simpl in Hin.
      intuition discriminate. }
    assert (Hnp : ~ In (Ev_ioctl fd request) (tp ++ tm)).
    { intros Hin. apply in_app_or in Hin as [Hin | Hin].
      - apply (kinds_In _ _ _ Kp) in Hin. simpl in Hin.
        intuition discriminate.
      - apply (kinds_In _ _ _ Km) in Hin. simpl in Hin.
        intuition discriminate. }
    split.
    + destruct Hm as [(-> & -> & ->) | (device & t' & ->)].
      * exfalso. apply Hnp. rewrite !app_nil_r in H. rewrite app_nil_r, H.
        apply in_or_app. right. now left.
      * exists device. rewrite app_assoc in H.
        apply split_in_right in H as [l ->]; [ | exact Hnp ].
        apply in_or_app. left. apply in_or_app. right. now left.
    + rewrite !app_assoc in H.
      apply split_in_left in H as [l Hl]; [ | exact Hnr ].
      apply (kinds_app_l _ _ (Ev_ioctl fd request :: l)). rewrite <- Hl.
      repeat apply kinds_app; (eapply kinds_incl; [ | eassumption ]);
        solve_incl.
  - intros t req t1 Hp Hm Hfl Hff.
    destruct (flush_device_fails _ Hff) as [tf Hf].
    assert (E : main cl = (t ++ t1 ++ tf, Exits 1)).
    { unfold main. rewrite (bind_returns _ _ _ _ Hp). cbv beta.
      rewrite (bind_returns _ _ _ _ Hm).
      unfold flush_if_requested. rewrite Hfl, Hf. reflexivity. }
    rewrite E. split; [ reflexivity | ]. unfold events. simpl.
    pose proof (parse_args_kinds cl) as Kp. rewrite Hp in Kp.
    pose proof (check_mount_kinds (device_name req)) as Km. rewrite Hm in Km.
    pose proof (flush_device_kinds (device_name req)) as Kf. rewrite Hf in Kf.
    simpl in *.
    repeat apply kinds_app; (eapply kinds_incl; [ | eassumption ]);
      solve_incl.
Qed.

(** The theorem on a run with [-F]: once with a flush that works, once
    with a failing [ioctl]. *)
Lemma flush_after_mount_test_before_open_witness :
  ((exists device,
      In (Ev_ext2fs_check_if_mounted device)
        (@banner hdr0
           ++ [Ev_ext2fs_check_if_mounted "/dev/hda1";
               Ev_open "/dev/hda1" 0]))
   /\ kinds [KMessage; KMountProbe; KFlush]
        (@banner hdr0
           ++ [Ev_ext2fs_check_if_mounted "/dev/hda1";
               Ev_open "/dev/hda1" 0]))
  /\ (exit_status
        (@main hdr0 w_flush_fails (cl0 [("F"%char, "")] ["/dev/hda1"])) = 1
      /\ kinds [KMessage; KMountProbe; KFlush]
           (events
              (@main hdr0 w_flush_fails (cl0 [("F"%char, "")] ["/dev/hda1"])))).
Proof.
  split.
  - apply (proj1 (@flush_after_mount_test_before_open hdr0 w0
                    (cl0 [("F"%char, "")] ["/dev/hda1"]))
             (@banner hdr0
                ++ [Ev_ext2fs_check_if_mounted "/dev/hda1";
                    Ev_open "/dev/hda1" 0])
             3 4705
             [Ev_close 3;
              Ev_ext2fs_open "/dev/hda1" 1 unix_io_manager;
              Ev_ext2fs_get_device_size "/dev/hda1" 1024;
              Ev_resize_fs fs0 1000 0 false;
              Ev_fprintf stdout
                "The filesystem on %s is now %d blocks long.\n\n"
                [AStr "/dev/hda1"; ANum 1000]]).
    reflexivity.
  - apply (proj2 (@flush_after_mount_test_before_open hdr0 w_flush_fails
                    (cl0 [("F"%char, "")] ["/dev/hda1"]))
             (@banner hdr0)
             {| program_name := "resize2fs"; device_name := "/dev/hda1";
                new_size := 0; flags := 0; flush := true; force := false |}
             [Ev_ext2fs_check_if_mounted "/dev/hda1"]).
    + reflexivity.
    + reflexivity.
    + reflexivity.
    + right. vm_compute. reflexivity.
Defined.

(** ** C8: the nothing-to-do exit and the other tests *)

(** C8, as stated, fails: asking for 500 blocks on a mounted device
    whose filesystem has 500 blocks does not reach the nothing-to-do
    exit; the mount test comes first and ends the run with status 1. *)
Lemma mount_test_runs_before_nothing_to_do_exit :
  s_blocks_count (super (snd (@ext2fs_open w_mounted "/dev/hda1" 1
                                 unix_io_manager))) = 500
  /\ @main hdr0 w_mounted (cl0 [] ["/dev/hda1"; "500"]) =
     (@banner hdr0
        ++ [Ev_ext2fs_check_if_mounted "/dev/hda1";
            Ev_fprintf stderr
              "%s is mounted; can't resize a mounted filesystem!\n\n"
              [AStr "/dev/hda1"]],
      Exits 1).
Proof. split; reflexivity. Qed.

(** C8, amended.  The nothing-to-do exit (the program's only [exit(0)])
    is taken after the mount test and the feature test have been made and
    have let the run through (and after the size test of line 259), and
    before the test of the check and modification times: a run that ends
    through [exit(0)] has probed the mount state, opened the filesystem
    and found no unsupported feature; and a run that resolves a target
    equal to the current size ends that way even if the filesystem was
    modified after its last check and the force flag is not set. *)
Theorem nothing_to_do_exit_position {hdr : Headers} {w : World}
    (cl : cmdline) :
  (snd (main cl) = Exits 0 ->
   exists t req fs max_size,
     preflight cl = (t, Returns (req, fs, max_size))
     /\ In (Ev_ext2fs_check_if_mounted (device_name req)) t
     /\ mount_gate_passes (device_name req) = true
     /\ unsupported_features (super fs) = false
     /\ capacity_gate_passes req max_size
     /\ resolved_size (new_size req) max_size = s_blocks_count (super fs)
     /\ main cl =
        (t ++ [Ev_fprintf stderr
                 "The filesystem is already %d blocks long.  Nothing to do!\n\n"
                 [ANum (s_blocks_count (super fs))]],
         Exits 0))
  /\ (forall t req fs max_size,
        preflight cl = (t, Returns (req, fs, max_size)) ->
        capacity_gate_passes req max_size ->
        resolved_size (new_size req) max_size = s_blocks_count (super fs) ->
        ~ consistency_gate_passes req fs ->
        main cl =
        (t ++ [Ev_fprintf stderr
                 "The filesystem is already %d blocks long.  Nothing to do!\n\n"
                 [ANum (s_blocks_count (super fs))]],
         Exits 0)).
Proof.
  split.
  - intros H0.
    destruct (main_cases cl) as [(t & _ & Hm) | (t & req & fs & m & Hp & Hm)].
    { rewrite Hm in H0. discriminate. }
    exists t, req, fs, m.
    destruct (preflight_returns _ _ _ _ _ Hp)
      as (t1 & t2 & t3 & t4 & _ & Hc & _ & Ho & _ & ->).
    apply check_mount_returns in Hc as [Hgate (t' & ->)].
    apply open_filesystem_returns in Ho as [Hfeat _].
    rewrite Hm in H0. simpl in H0.
    destruct (resize_and_report_cases req fs m)
      as [(_ & e & E & _) | [(Hcap & Heq & e & E & _)
         | [(_ & _ & _ & e & E & _) | (_ & _ & _ & E)]]];
      rewrite E in H0; try discriminate.
    repeat split; try assumption.
    + apply in_or_app. right. now left.
    + rewrite Hm, (resize_and_report_nothing_to_do _ _ _ Hcap Heq).
      simpl. now rewrite Heq.
  - intros t req fs m Hp Hcap Heq _.
    rewrite (main_run _ _ _ _ _ Hp).
    rewrite (resize_and_report_nothing_to_do _ _ _ Hcap Heq).
    simpl. now rewrite Heq.
Qed.

(** The theorem on a filesystem of 500 blocks modified after its last
    check, asked to become 500 blocks. *)
Lemma nothing_to_do_exit_position_witness :
  (exists t req fs max_size,
     @preflight hdr0 w_unchecked (cl0 [] ["/dev/hda1"; "500"])
     = (t, Returns (req, fs, max_size))
     /\ In (Ev_ext2fs_check_if_mounted (device_name req)) t
     /\ @mount_gate_passes hdr0 w_unchecked (device_name req) = true
     /\ @unsupported_features hdr0 (super fs) = false
     /\ capacity_gate_passes req max_size
     /\ resolved_size (new_size req) max_size = s_blocks_count (super fs)
     /\ @main hdr0 w_unchecked (cl0 [] ["/dev/hda1"; "500"]) =
        (t ++ [Ev_fprintf stderr
                 "The filesystem is already %d blocks long.  Nothing to do!\n\n"
                 [ANum (s_blocks_count (super fs))]],
         Exits 0))
  /\ @main hdr0 w_unchecked (cl0 [] ["/dev/hda1"; "500"]) =
     ((@banner hdr0
         ++ [Ev_ext2fs_check_if_mounted "/dev/hda1";
             Ev_ext2fs_open "/dev/hda1" 1 unix_io_manager;
             Ev_ext2fs_get_device_size "/dev/hda1" 1024])
        ++ [Ev_fprintf stderr
              "The filesystem is already %d blocks long.  Nothing to do!\n\n"
              [ANum 500]],
      Exits 0).
Proof.
  split.
  - apply (proj1 (@nothing_to_do_exit_position hdr0 w_unchecked
                    (cl0 [] ["/dev/hda1"; "500"]))).
    reflexivity.
  - apply (proj2 (@nothing_to_do_exit_position hdr0 w_unchecked
                    (cl0 [] ["/dev/hda1"; "500"]))
             (@banner hdr0
                ++ [Ev_ext2fs_check_if_mounted "/dev/hda1";
                    Ev_ext2fs_open "/dev/hda1" 1 unix_io_manager;
                    Ev_ext2fs_get_device_size "/dev/hda1" 1024])
             {| program_name := "resize2fs"; device_name := "/dev/hda1";
                new_size := 500; flags := 0; flush := false;
                force := false |}
             {| super := sb_unchecked; blocksize := 1024 |} 1000).
    + reflexivity.
    + right. vm_compute. discriminate.
    + reflexivity.
    + intros [H | H]; [ discriminate | ]. vm_compute in H. now apply H.
Defined.

(** ** C6: the progress callback on a script of two passes *)

(** C6, as stated, fails on the number of updates: on the script of five
    progress points, of which one is intermediate, the callback calls
    [ext2fs_progress_update] five times, at the opening and the closing
    points as well. *)
Lemma two_passes_update_count :
  count is_progress_update
    (fst (@run_progress hdr0 w0 {| prog_data := 0 |} (two_passes 1 2)))
  = 5%nat
  /\ List.length (filter intermediate (two_passes 1 2)) = 1%nat
  /\ fst (fst (@resize_progress_func hdr0 w0 {| prog_data := 0 |} 1 0 100))
     = [Ev_fprintf stdout "Begin pass %d (max = %lu)\n" [ANum 1; ANum 100];
        Ev_ext2fs_progress_init "Extending the inode table" 100;
        Ev_ext2fs_progress_update 4196 0].
Proof. repeat split. Qed.

(** C6, amended.  On the script (A,0,100), (A,50,100), (A,100,100),
    (B,0,10), (B,10,10), started with no meter and with
    [ext2fs_progress_init] succeeding for both passes, the callback makes
    exactly two init calls, exactly five update calls (one for every
    progress point: the meter is updated at the opening and the closing
    points too), exactly two close calls, each right after the update of
    its pass's last point, and it leaves [prog_data] NULL. *)
Theorem two_passes_calls {hdr : Headers} {w : World}
    (passA passB pA pB : Z) :
  ext2fs_progress_init (pass_label passA) 100 = (0, pA) -> pA <> 0 ->
  ext2fs_progress_init (pass_label passB) 10 = (0, pB) -> pB <> 0 ->
  let r := run_progress {| prog_data := 0 |} (two_passes passA passB) in
  fst r =
    [Ev_fprintf stdout "Begin pass %d (max = %lu)\n" [ANum passA; ANum 100];
     Ev_ext2fs_progress_init (pass_label passA) 100;
     Ev_ext2fs_progress_update pA 0;
     Ev_ext2fs_progress_update pA 50;
     Ev_ext2fs_progress_update pA 100;
     Ev_ext2fs_progress_close pA;
     Ev_fprintf stdout "Begin pass %d (max = %lu)\n" [ANum passB; ANum 10];
     Ev_ext2fs_progress_init (pass_label passB) 10;
     Ev_ext2fs_progress_update pB 0;
     Ev_ext2fs_progress_update pB 10;
     Ev_ext2fs_progress_close pB]
  /\ count is_progress_init (fst r) = 2%nat
  /\ count is_progress_update (fst r) = List.length (two_passes passA passB)
  /\ count is_progress_close (fst r) = 2%nat
  /\ prog_data (snd r) = 0.
Proof.
  intros HA HpA HB HpB r.
  apply Z.eqb_neq in HpA, HpB.
  assert (E : r =
    ([Ev_fprintf stdout "Begin pass %d (max = %lu)\n" [ANum passA; ANum 100];
      Ev_ext2fs_progress_init (pass_label passA) 100;
      Ev_ext2fs_progress_update pA 0;
      Ev_ext2fs_progress_update pA 50;
      Ev_ext2fs_progress_update pA 100;
      Ev_ext2fs_progress_close pA;
      Ev_fprintf stdout "Begin pass %d (max = %lu)\n" [ANum passB; ANum 10];
      Ev_ext2fs_progress_init (pass_label passB) 10;
      Ev_ext2fs_progress_update pB 0;
      Ev_ext2fs_progress_update pB 10;
      Ev_ext2fs_progress_close pB], {| prog_data := 0 |})).
  { subst r. unfold two_passes, run_progress, resize_progress_func.
    repeat first
      [ rewrite HA | rewrite HB | rewrite HpA | rewrite HpB
      | progress cbn [Z.eqb Z.leb Z.compare Pos.compare Pos.compare_cont
                      app prog_data] ].
    reflexivity. }
  rewrite E. repeat split.
Qed.

(** The theorem on passes 1 and 2 in the sample world. *)
Lemma two_passes_calls_witness :
  let r := @run_progress hdr0 w0 {| prog_data := 0 |} (two_passes 1 2) in
  fst r =
    [Ev_fprintf stdout "Begin pass %d (max = %lu)\n" [ANum 1; ANum 100];
     Ev_ext2fs_progress_init "Extending the inode table" 100;
     Ev_ext2fs_progress_update 4196 0;
     Ev_ext2fs_progress_update 4196 50;
     Ev_ext2fs_progress_update 4196 100;
     Ev_ext2fs_progress_close 4196;
     Ev_fprintf stdout "Begin pass %d (max = %lu)\n" [ANum 2; ANum 10];
     Ev_ext2fs_progress_init "Relocating blocks" 10;
     Ev_ext2fs_progress_update 4106 0;
     Ev_ext2fs_progress_update 4106 10;
     Ev_ext2fs_progress_close 4106]
  /\ count is_progress_init (fst r) = 2%nat
  /\ count is_progress_update (fst r) = 5%nat
  /\ count is_progress_close (fst r) = 2%nat
  /\ prog_data (snd r) = 0.
Proof.
  apply (@two_passes_calls hdr0 w0 1 2 4196 4106).
  - reflexivity.
  - discriminate.
  - reflexivity.
  - discriminate.
Defined.

(** ** C7: what the force flag switches off *)

Section Force.

Context {hdr : Headers} {w : World}.

(** The mount test does not look at the force flag: a device reported as
    mounted ends the run with status 1 before anything is opened. *)
Lemma mounted_device_stops_the_run cl t req :
  parse_args cl = (t, Returns req) ->
  fst (ext2fs_check_if_mounted (device_name req)) = 0 ->
  Z.land (snd (ext2fs_check_if_mounted (device_name req))) EXT2_MF_MOUNTED
  <> 0 ->
  main cl =
  (t ++ [Ev_ext2fs_check_if_mounted (device_name req);
         Ev_fprintf stderr
           "%s is mounted; can't resize a mounted filesystem!\n\n"
           [AStr (device_name req)]],
   Exits 1).
Proof.
  intros Hp H0 Hm. rewrite main_after_mount.
  rewrite (bind_returns _ _ _ _ Hp). cbv beta.
  now rewrite (bind_exits _ _ _ _ (check_mount_mounted _ H0 Hm)).
Qed.

(** Neither does the feature test: a bit of the compatible word outside
    the supported mask makes [open_filesystem] report
    [EXT2_ET_UNSUPP_FEATURE] and exit with status 1. *)
Lemma unknown_compat_feature_stops_the_run req :
  Z.land
    (s_feature_compat
       (super (snd (ext2fs_open (device_name req) EXT2_FLAG_RW
                      (if negb (Z.land (flags req) RESIZE_DEBUG_IO =? 0)
                       then test_io_manager else unix_io_manager)))))
    (Z.lnot EXT2_LIB_FEATURE_COMPAT_SUPP) <> 0 ->
  fst (ext2fs_open (device_name req) EXT2_FLAG_RW
         (if negb (Z.land (flags req) RESIZE_DEBUG_IO =? 0)
          then test_io_manager else unix_io_manager)) = 0 ->
  snd (open_filesystem req) = Exits 1
  /\ In (Ev_com_err (program_name req) EXT2_ET_UNSUPP_FEATURE "(%s)"
           [AStr (device_name req)])
       (fst (open_filesystem req)).
Proof.
  unfold open_filesystem, unsupported_features.
  destruct (Z.land (flags req) RESIZE_DEBUG_IO =? 0); simpl;
    match goal with
    | |- context [ext2fs_open ?d ?f ?io] =>
        destruct (ext2fs_open d f io) as [rv fs]
    end; simpl; intros Hc ->; apply Z.eqb_neq in Hc; rewrite Hc; simpl;
    split; auto.
Qed.

(** With the force flag the tests of lines 259 and 271 let every run
    through. *)
Lemma force_passes_capacity_and_consistency req fs max_size :
  force req = true ->
  capacity_gate_passes req max_size /\ consistency_gate_passes req fs.
Proof. intros H. split; now left. Qed.

End Force.

(** C7 (the code departs from the claim).  The feature test of lines
    238-239 never reads the read-only-compatible word: it tests the
    incompatible word against the read-only-compatible mask.  So the
    answer of the test does not change with [s_feature_ro_compat], and a
    forced run on a filesystem whose read-only-compatible word has a bit
    outside the supported mask goes through to the engine and ends with
    status 0, without any [EXT2_ET_UNSUPP_FEATURE] report. *)
Theorem ro_compat_word_is_never_tested :
  (forall (hdr : Headers) (s : ext2_super_block) (v : Z),
     @unsupported_features hdr
       {| s_blocks_count := s_blocks_count s;
          s_mtime := s_mtime s;
          s_lastcheck := s_lastcheck s;
          s_feature_compat := s_feature_compat s;
          s_feature_incompat := s_feature_incompat s;
          s_feature_ro_compat := v |}
     = @unsupported_features hdr s)
  /\ Z.land (s_feature_ro_compat sb_ro_feature)
       (Z.lnot (@EXT2_LIB_FEATURE_RO_COMPAT_SUPP hdr0)) = 32768
  /\ @main hdr0 w_ro_feature (cl0 [("f"%char, "")] ["/dev/hda1"]) =
     (@banner hdr0
        ++ [Ev_ext2fs_check_if_mounted "/dev/hda1";
            Ev_ext2fs_open "/dev/hda1" 1 unix_io_manager;
            Ev_ext2fs_get_device_size "/dev/hda1" 1024;
            Ev_resize_fs fs_ro_feature 1000 0 false;
            Ev_fprintf stdout
              "The filesystem on %s is now %d blocks long.\n\n"
              [AStr "/dev/hda1"; ANum 1000]],
      Returns 0).
Proof. repeat split. Qed.

(** ** C9: a size argument of 0 *)

(** C9.  A size operand that converts to 0 leaves [new_size] at 0, the
    value it has when no size operand is given: the request parsed is
    the same, the whole run is the same, the target resolved is the
    probed size of the device, and any call of the engine is made with
    that size. *)
Theorem zero_size_is_no_size {hdr : Headers} {w : World}
    (prog : string) (opts : list (ascii * string))
    (device size_arg : string) :
  snd (strtoul size_arg) = "" ->
  blk_t (fst (strtoul size_arg)) = 0 ->
  let with_zero :=
    {| argv0 := prog; options := opts; operands := [device; size_arg] |} in
  let without :=
    {| argv0 := prog; options := opts; operands := [device] |} in
  parse_args with_zero = parse_args without
  /\ main with_zero = main without
  /\ (forall t req fs max_size,
        preflight with_zero = (t, Returns (req, fs, max_size)) ->
        new_size req = 0
        /\ resolved_size (new_size req) max_size = max_size)
  /\ (forall fs n fl cb,
        In (Ev_resize_fs fs n fl cb) (events (main with_zero)) ->
        exists t req max_size,
          preflight with_zero = (t, Returns (req, fs, max_size))
          /\ n = max_size).
Proof.
  intros Htmp Hv with_zero without.
  assert (Hp : parse_args with_zero = parse_args without).
  { unfold parse_args, with_zero, without. simpl.
    destruct (getopt_loop_spec prog opts 0 false false)
      as [(t' & -> & _) | (fu & fo & ->)]; [ reflexivity | ].
    destruct (strtoul size_arg) as [v tmp]. simpl in *. subst tmp.
    rewrite Hv. reflexivity. }
  assert (Hz : forall t req fs max_size,
             preflight with_zero = (t, Returns (req, fs, max_size)) ->
             new_size req = 0).
  { intros t req fs m H.
    destruct (preflight_returns _ _ _ _ _ H) as (_ & _ & _ & _ & Hq & _).
    apply parse_args_returns in Hq
      as (_ & _ & _ & [[_ H0] | (a & Ha & _ & H0)]); [ exact H0 | ].
    simpl in Ha. injection Ha as _ <-. now rewrite H0. }
  split; [ exact Hp | ].
  split; [ unfold main; now rewrite Hp | ].
  split.
  - intros t req fs m H. rewrite (Hz _ _ _ _ H). now split.
  - intros fs n fl cb H.
    apply engine_call_inv in H as (t & req & m & H & _ & -> & _).
    exists t, req, m. split; [ exact H | ].
    now rewrite (Hz _ _ _ _ H).
Qed.

(** The theorem on the size operand 0. *)
Lemma zero_size_is_no_size_witness :
  @main hdr0 w0 (cl0 [] ["/dev/hda1"; "0"])
  = @main hdr0 w0 (cl0 [] ["/dev/hda1"])
  /\ In (Ev_resize_fs fs0 1000 0 false)
       (events (@main hdr0 w0 (cl0 [] ["/dev/hda1"; "0"]))).
Proof.
  split.
  - apply (@zero_size_is_no_size hdr0 w0 "resize2fs" [] "/dev/hda1" "0");
      reflexivity.
  - vm_compute. in_list.
Defined.

(** ** C10: the progress callback and the debug mask *)

Section Flags.

Context {hdr : Headers} {w : World}.

Lemma land_lor_nonzero_l a b m : Z.land a m <> 0 -> Z.land (Z.lor a b) m <> 0.
Proof.
  intros H. rewrite Z.land_lor_distr_l, Z.lor_eq_0_iff. tauto.
Qed.

Lemma land_lor_nonzero_r a b m : Z.land b m <> 0 -> Z.land (Z.lor a b) m <> 0.
Proof.
  intros H. rewrite Z.land_lor_distr_l, Z.lor_eq_0_iff. tauto.
Qed.

(** Options only add bits to [flags]. *)
Lemma combined_flags_keeps opts start m :
  Z.land start m <> 0 -> Z.land (combined_flags opts start) m <> 0.
Proof.
  revert start. induction opts as [ | [c optarg] opts IH]; intros start H.
  - exact H.
  - unfold combined_flags. simpl. apply IH.
    destruct (Ascii.eqb c "d"); [ now apply land_lor_nonzero_l | ].
    destruct (Ascii.eqb c "p"); [ now apply land_lor_nonzero_l | exact H ].
Qed.

Lemma combined_flags_debug opts start optarg m :
  In ("d"%char, optarg) opts ->
  Z.land (atoi optarg) m <> 0 ->
  Z.land (combined_flags opts start) m <> 0.
Proof.
  revert start. induction opts as [ | [c a] opts IH]; intros start Hin H.
  - destruct Hin.
  - destruct Hin as [Hin | Hin].
    + injection Hin as -> ->. unfold combined_flags. simpl.
      apply combined_flags_keeps. now apply land_lor_nonzero_r.
    + unfold combined_flags. simpl. now apply IH.
Qed.

Lemma combined_flags_percent opts start optarg :
  In ("p"%char, optarg) opts ->
  RESIZE_PERCENT_COMPLETE <> 0 ->
  Z.land (combined_flags opts start) RESIZE_PERCENT_COMPLETE <> 0.
Proof.
  revert start. induction opts as [ | [c a] opts IH]; intros start Hin H.
  - destruct Hin.
  - destruct Hin as [Hin | Hin].
    + injection Hin as -> ->. unfold combined_flags. simpl.
      apply combined_flags_keeps. apply land_lor_nonzero_r.
      now rewrite Z.land_diag.
    + unfold combined_flags. simpl. now apply IH.
Qed.

Lemma progress_requested_iff fl :
  progress_requested fl = true <-> Z.land fl RESIZE_PERCENT_COMPLETE <> 0.
Proof.
  unfold progress_requested. rewrite negb_true_iff. apply Z.eqb_neq.
Qed.

End Flags.

(** C10.  The [flags] word of a run is 0 with [atoi(optarg)] ORed in for
    every [-d] and [RESIZE_PERCENT_COMPLETE] ORed in for every [-p].  The
    engine is handed the progress callback exactly when that word has a
    bit in common with [RESIZE_PERCENT_COMPLETE], and it is handed the
    same word as its flags.  So a [-d] value with such a bit asks for the
    callback just as [-p] does. *)
Theorem debug_mask_can_request_progress {hdr : Headers} {w : World}
    (cl : cmdline) (t : trace) (req : request) :
  parse_args cl = (t, Returns req) ->
  flags req = combined_flags (options cl) 0
  /\ (forall optarg,
        In ("d"%char, optarg) (options cl) ->
        Z.land (atoi optarg) RESIZE_PERCENT_COMPLETE <> 0 ->
        progress_requested (flags req) = true)
  /\ (forall optarg,
        In ("p"%char, optarg) (options cl) ->
        RESIZE_PERCENT_COMPLETE <> 0 ->
        progress_requested (flags req) = true)
  /\ (progress_requested (flags req) = true
      <-> Z.land (flags req) RESIZE_PERCENT_COMPLETE <> 0)
  /\ (forall fs n fl cb,
        In (Ev_resize_fs fs n fl cb) (events (main cl)) ->
        fl = flags req /\ cb = progress_requested (flags req)).
Proof.
  intros Hp.
  destruct (parse_args_returns _ _ _ Hp) as (-> & _ & Hfl & _).
  split; [ exact Hfl | ].
  split.
  { intros optarg Hin H. apply progress_requested_iff. rewrite Hfl.
    now apply combined_flags_debug with optarg. }
  split.
  { intros optarg Hin H. apply progress_requested_iff. rewrite Hfl.
    now apply combined_flags_percent with optarg. }
  split; [ apply progress_requested_iff | ].
  intros fs n fl cb H.
  apply engine_call_inv in H as (t' & req' & m & Hpre & _ & _ & _ & _ & -> & -> & _).
  destruct (preflight_returns _ _ _ _ _ Hpre) as (_ & _ & _ & _ & Hq & _).
  rewrite Hp in Hq. injection Hq as <-. now split.
Qed.

(** The theorem on [-d 256], the value of [RESIZE_PERCENT_COMPLETE]
    in the sample headers. *)
Lemma debug_mask_can_request_progress_witness :
  @progress_requested hdr0 256 = true
  /\ In (Ev_resize_fs fs0 1000 256 true)
       (events (@main hdr0 w_two_passes (cl0 [("d"%char, "256")] ["/dev/hda1"]))).
Proof.
  destruct (@debug_mask_can_request_progress hdr0 w_two_passes
              (cl0 [("d"%char, "256")] ["/dev/hda1"])
              (@banner hdr0)
              {| program_name := "resize2fs"; device_name := "/dev/hda1";
                 new_size := 0; flags := 256; flush := false;
                 force := false |}
              eq_refl)
    as (_ & Hd & _).
  split.
  - apply (Hd "256"); [ now left | vm_compute; discriminate ].
  - vm_compute. in_list.
Defined.

(** * Further properties of the program *)

(** ** The command line *)

Section CommandLine.

Context {hdr : Headers} {w : World}.

(** With accepted options only, the loop prints nothing; the flush and
    force flags say whether [-F] and [-f] occurred. *)
Lemma getopt_loop_valid prog opts fl fu fo :
  forallb (fun o => valid_option (fst o)) opts = true ->
  getopt_loop prog opts fl fu fo =
  ([], Returns (combined_flags opts fl,
                fu || existsb (fun o => Ascii.eqb (fst o) "F") opts,
                fo || existsb (fun o => Ascii.eqb (fst o) "f") opts)).
Proof.
  revert fl fu fo.
  induction opts as [ | [c optarg] opts IH]; intros fl fu fo H.
  - simpl. now rewrite !orb_false_r.
  - simpl in H. apply andb_true_iff in H as [Hc H].
    unfold valid_option in Hc. unfold combined_flags. simpl.
    destruct (Ascii.eqb c "h") eqn:Eh.
    { apply Ascii.eqb_eq in Eh. subst c. discriminate Hc. }
    destruct (Ascii.eqb c "f") eqn:Ef.
    { apply Ascii.eqb_eq in Ef. subst c. simpl.
      rewrite (IH fl fu true H). unfold combined_flags.
      now rewrite orb_true_r. }
    destruct (Ascii.eqb c "F") eqn:EF.
    { apply Ascii.eqb_eq in EF. subst c. simpl.
      rewrite (IH fl true fo H). unfold combined_flags.
      now rewrite orb_true_r. }
    destruct (Ascii.eqb c "d") eqn:Ed; [ now rewrite (IH _ fu fo H) | ].
    destruct (Ascii.eqb c "p") eqn:Ep; [ now rewrite (IH _ fu fo H) | ].
    discriminate Hc.
Qed.

(** With an option it does not accept, wherever it stands, the loop ends
    in [usage]. *)
Lemma getopt_loop_invalid prog opts fl fu fo :
  forallb (fun o => valid_option (fst o)) opts = false ->
  getopt_loop prog opts fl fu fo = ([usage_message prog], Exits 1).
Proof.
  revert fl fu fo.
  induction opts as [ | [c optarg] opts IH]; intros fl fu fo H.
  - discriminate H.
  - simpl in H. simpl.
    destruct (Ascii.eqb c "h") eqn:Eh; [ reflexivity | ].
    destruct (Ascii.eqb c "f") eqn:Ef.
    { apply Ascii.eqb_eq in Ef. subst c. now apply IH. }
    destruct (Ascii.eqb c "F") eqn:EF.
    { apply Ascii.eqb_eq in EF. subst c. now apply IH. }
    destruct (Ascii.eqb c "d") eqn:Ed.
    { apply Ascii.eqb_eq in Ed. subst c. now apply IH. }
    destruct (Ascii.eqb c "p") eqn:Ep.
    { apply Ascii.eqb_eq in Ep. subst c. now apply IH. }
    reflexivity.
Qed.

Lemma parse_args_invalid_option cl :
  forallb (fun o => valid_option (fst o)) (options cl) = false ->
  parse_args cl = (banner ++ [usage_message (argv0 cl)], Exits 1).
Proof.
  intros H. unfold parse_args.
  now rewrite (getopt_loop_invalid _ _ 0 false false H).
Qed.

Lemma main_stops_where_parse_args_does cl t s :
  parse_args cl = (t, Exits s) -> main cl = (t, Exits s).
Proof. intros H. unfold main. now rewrite H. Qed.

(** What a parsed request says about the options. *)
Lemma parse_args_flags cl t req :
  parse_args cl = (t, Returns req) ->
  forallb (fun o => valid_option (fst o)) (options cl) = true
  /\ flush req = existsb (fun o => Ascii.eqb (fst o) "F") (options cl)
  /\ force req = existsb (fun o => Ascii.eqb (fst o) "f") (options cl).
Proof.
  intros H.
  destruct (forallb (fun o => valid_option (fst o)) (options cl)) eqn:V.
  2: { rewrite (parse_args_invalid_option _ V) in H. discriminate H. }
  split; [ reflexivity | ].
  revert H. unfold parse_args.
  rewrite (getopt_loop_valid _ _ 0 false false V).
  destruct (operands cl) as [ | dev [ | a [ | b rest]]];
    proc_unfold; simpl; try discriminate.
  - intros [= _ <-]. simpl. now split.
  - destruct (strtoul a) as [v tmp].
    destruct (tmp =? "")%string; simpl; [ | discriminate ].
    intros [= _ <-]. simpl. now split.
  - destruct (strtoul a) as [v tmp].
    destruct (tmp =? "")%string; simpl; discriminate.
Qed.

End CommandLine.

(** X1.  An option character other than [f], [F], [d] and [p] (so [h]
    too), anywhere among the options, makes the run print the banner and
    the usage line and exit with status 1; nothing else is done, whatever
    the operands are. *)
Theorem unaccepted_option_prints_usage {hdr : Headers} {w : World}
    (cl : cmdline) (c : ascii) (optarg : string) :
  In (c, optarg) (options cl) ->
  valid_option c = false ->
  main cl = (banner ++ [usage_message (argv0 cl)], Exits 1).
Proof.
  intros Hin Hc. apply main_stops_where_parse_args_does.
  apply parse_args_invalid_option.
  destruct (forallb (fun o => valid_option (fst o)) (options cl)) eqn:V;
    [ | reflexivity ].
  rewrite forallb_forall in V. specialize (V _ Hin). simpl in V. congruence.
Qed.

(** The theorem on [-f -h] with a device operand. *)
Lemma unaccepted_option_prints_usage_witness :
  @main hdr0 w0 (cl0 [("f"%char, ""); ("h"%char, "")] ["/dev/hda1"]) =
  (@banner hdr0 ++ [usage_message "resize2fs"], Exits 1).
Proof.
  apply (@unaccepted_option_prints_usage hdr0 w0
           (cl0 [("f"%char, ""); ("h"%char, "")] ["/dev/hda1"])
           "h"%char "").
  - simpl. right. now left.
  - reflexivity.
Defined.

(** X2.  Mistakes in the operands are caught before the device is
    touched.  With no operand the run prints the usage line and exits
    with 1.  With a size operand that [strtoul] does not consume to its
    end (and accepted options), it reports the bad size through
    [com_err] and exits with 1, even if more operands follow.  With more
    than two operands, the size one being well formed, it prints the
    usage line and exits with 1. *)
Theorem operand_errors_stop_before_the_device {hdr : Headers} {w : World}
    (prog : string) (opts : list (ascii * string)) :
  main {| argv0 := prog; options := opts; operands := [] |}
  = (banner ++ [usage_message prog], Exits 1)
  /\ (forall device size_arg rest,
        forallb (fun o => valid_option (fst o)) opts = true ->
        snd (strtoul size_arg) <> "" ->
        main {| argv0 := prog; options := opts;
                operands := device :: size_arg :: rest |}
        = (banner ++ [Ev_com_err prog 0 "bad filesystem size - %s"
                        [AStr size_arg]],
           Exits 1))
  /\ (forall device size_arg extra rest,
        snd (strtoul size_arg) = "" ->
        main {| argv0 := prog; options := opts;
                operands := device :: size_arg :: extra :: rest |}
        = (banner ++ [usage_message prog], Exits 1)).
Proof.
  split; [ | split ].
  - apply main_stops_where_parse_args_does.
    destruct (forallb (fun o => valid_option (fst o)) opts) eqn:V.
    + unfold parse_args. simpl.
      now rewrite (getopt_loop_valid _ _ 0 false false V).
    + now apply (parse_args_invalid_option
                   {| argv0 := prog; options := opts; operands := [] |}).
  - intros device size_arg rest V Ht.
    apply main_stops_where_parse_args_does.
    unfold parse_args. simpl.
    rewrite (getopt_loop_valid _ _ 0 false false V).
    destruct (strtoul size_arg) as [v tmp]. simpl in Ht.
    apply String.eqb_neq in Ht. proc_unfold. simpl. now rewrite Ht.
  - intros device size_arg extra rest Ht.
    apply main_stops_where_parse_args_does.
    destruct (forallb (fun o => valid_option (fst o)) opts) eqn:V.
    + unfold parse_args. simpl.
      rewrite (getopt_loop_valid _ _ 0 false false V).
      destruct (strtoul size_arg) as [v tmp]. simpl in Ht. subst tmp.
      reflexivity.
    + now apply (parse_args_invalid_option
                   {| argv0 := prog; options := opts;
                      operands := device :: size_arg :: extra :: rest |}).
Qed.

(** The theorem on the size operand [12k], of which [strtoul] leaves
    [k], and on three operands. *)
Lemma operand_errors_stop_before_the_device_witness :
  @main hdr0 w0 (cl0 [("f"%char, "")] ["/dev/hda1"; "12k"])
  = (@banner hdr0
       ++ [Ev_com_err "resize2fs" 0 "bad filesystem size - %s" [AStr "12k"]],
     Exits 1)
  /\ @main hdr0 w0 (cl0 [] ["/dev/hda1"; "800"; "900"])
     = (@banner hdr0 ++ [usage_message "resize2fs"], Exits 1).
Proof.
  destruct (@operand_errors_stop_before_the_device hdr0 w0 "resize2fs"
              [("f"%char, "")]) as (_ & Hbad & _).
  destruct (@operand_errors_stop_before_the_device hdr0 w0 "resize2fs" [])
    as (_ & _ & Hmany).
  split.
  - apply (Hbad "/dev/hda1" "12k" []); [ reflexivity | ].
    vm_compute. discriminate.
  - apply (Hmany "/dev/hda1" "800" "900" []). reflexivity.
Defined.

Section OptionOrder.

Context {hdr : Headers} {w : World}.

Lemma forallb_permutation {A : Type} (f : A -> bool) (l l' : list A) :
  Permutation l l' -> forallb f l = forallb f l'.
Proof.
  induction 1 as [ | x l l' _ IH | x y l | l l' l'' _ IH1 _ IH2]; simpl.
  - reflexivity.
  - now rewrite IH.
  - now destruct (f x), (f y).
  - now rewrite IH1.
Qed.

Lemma existsb_permutation {A : Type} (f : A -> bool) (l l' : list A) :
  Permutation l l' -> existsb f l = existsb f l'.
Proof.
  induction 1 as [ | x l l' _ IH | x y l | l l' l'' _ IH1 _ IH2]; simpl.
  - reflexivity.
  - now rewrite IH.
  - now destruct (f x), (f y).
  - now rewrite IH1.
Qed.

Lemma lor_swap a b c : Z.lor (Z.lor a b) c = Z.lor (Z.lor a c) b.
Proof.
  now rewrite <- !Z.lor_assoc, (Z.lor_comm b c).
Qed.

(** The bits the options contribute do not depend on their order. *)
Lemma combined_flags_permutation opts opts' :
  Permutation opts opts' ->
  forall start, combined_flags opts start = combined_flags opts' start.
Proof.
  induction 1 as [ | x l l' _ IH | [c a] [c' a'] l | l l' l'' _ IH1 _ IH2];
    intros start.
  - reflexivity.
  - unfold combined_flags in *. simpl. apply IH.
  - unfold combined_flags. simpl. f_equal.
    destruct (Ascii.eqb c "d"), (Ascii.eqb c "p"),
             (Ascii.eqb c' "d"), (Ascii.eqb c' "p");
      try reflexivity; apply lor_swap.
  - now rewrite IH1.
Qed.

End OptionOrder.

(** X3.  The order in which the options are given does not matter: two
    command lines whose options are permutations of each other, with the
    same program name and operands, give the same run, event for event,
    and the same exit status. *)
Theorem option_order_is_irrelevant {hdr : Headers} {w : World}
    (prog : string) (opts opts' : list (ascii * string))
    (ops : list string) :
  Permutation opts opts' ->
  main {| argv0 := prog; options := opts; operands := ops |}
  = main {| argv0 := prog; options := opts'; operands := ops |}.
Proof.
  intros P.
  assert (E : parse_args {| argv0 := prog; options := opts; operands := ops |}
            = parse_args {| argv0 := prog; options := opts';
                            operands := ops |}).
  { pose proof (forallb_permutation (fun o => valid_option (fst o)) _ _ P)
      as Hv.
    destruct (forallb (fun o => valid_option (fst o)) opts) eqn:V.
    - symmetry in Hv. unfold parse_args. simpl.
      rewrite (getopt_loop_valid _ _ 0 false false V).
      rewrite (getopt_loop_valid _ _ 0 false false Hv).
      rewrite (combined_flags_permutation _ _ P).
      rewrite (existsb_permutation (fun o => Ascii.eqb (fst o) "F") _ _ P).
      rewrite (existsb_permutation (fun o => Ascii.eqb (fst o) "f") _ _ P).
      reflexivity.
    - symmetry in Hv.
      rewrite (parse_args_invalid_option
                 {| argv0 := prog; options := opts; operands := ops |} V).
      rewrite (parse_args_invalid_option
                 {| argv0 := prog; options := opts'; operands := ops |} Hv).
      reflexivity. }
  unfold main. now rewrite E.
Qed.

(** The theorem on [-p -f -d 1] against [-d 1 -f -p]. *)
Lemma option_order_is_irrelevant_witness :
  @main hdr0 w_two_passes
    (cl0 [("p"%char, ""); ("f"%char, ""); ("d"%char, "1")] ["/dev/hda1"])
  = @main hdr0 w_two_passes
      (cl0 [("d"%char, "1"); ("f"%char, ""); ("p"%char, "")] ["/dev/hda1"]).
Proof.
  apply (@option_order_is_irrelevant hdr0 w_two_passes "resize2fs"
           [("p"%char, ""); ("f"%char, ""); ("d"%char, "1")]
           [("d"%char, "1"); ("f"%char, ""); ("p"%char, "")]
           ["/dev/hda1"]).
  apply (Permutation_rev
           [("p"%char, ""); ("f"%char, ""); ("d"%char, "1")]).
Defined.

(** ** How a run ends *)

(** X4.  The exit status of a run is 0 or 1, whatever the command line
    and whatever the outside world answers. *)
Theorem exit_status_is_0_or_1 {hdr : Headers} {w : World} (cl : cmdline) :
  exit_status (main cl) = 0 \/ exit_status (main cl) = 1.
Proof.
  unfold exit_status.
  destruct (main_cases cl) as [(t & _ & ->) | (t & req & fs & m & _ & ->)];
    simpl; [ now right | ].
  destruct (resize_and_report_cases req fs m)
    as [(_ & e & -> & _) | [(_ & _ & e & -> & _)
       | [(_ & _ & _ & e & -> & _) | (_ & _ & _ & ->)]]]; simpl; auto.
Qed.

(** X5.  A run calls the engine at most once, and whether it did can be
    read off the way it ends: a run that leaves through [exit] never
    called [resize_fs], [ext2fs_close] or the progress meter, and a run
    in which [main] returns called [resize_fs] exactly once and returns
    0. *)
Theorem engine_called_iff_main_returns {hdr : Headers} {w : World}
    (cl : cmdline) :
  (exists s,
     snd (main cl) = Exits s
     /\ engine_calls (events (main cl)) = 0%nat
     /\ kinds [KMessage; KMountProbe; KFlush; KOpen; KSizeProbe]
          (events (main cl)))
  \/ (snd (main cl) = Returns 0
      /\ engine_calls (events (main cl)) = 1%nat).
Proof.
  pose proof (preflight_kinds cl) as K.
  assert (Hno : forall t,
            kinds [KMessage; KMountProbe; KFlush; KOpen; KSizeProbe] t ->
            engine_calls t = 0%nat).
  { intros t Kt. eapply engine_calls_kinds; [ exact Kt | ].
    simpl. intuition discriminate. }
  unfold events.
  destruct (main_cases cl) as [(t & Hp & ->) | (t & req & fs & m & Hp & ->)];
    rewrite Hp in K; simpl in K |- *.
  { left. exists 1. auto. }
  assert (Hone : forall e, kind_of e = KMessage ->
            kinds [KMessage; KMountProbe; KFlush; KOpen; KSizeProbe]
              (t ++ [e])).
  { intros e He. apply kinds_app; [ exact K | ].
    apply kinds_cons; [ rewrite He; simpl; auto | apply kinds_nil ]. }
  destruct (resize_and_report_cases req fs m)
    as [(_ & e & -> & He) | [(_ & _ & e & -> & He)
       | [(_ & _ & _ & e & -> & He) | (_ & _ & _ & ->)]]]; simpl.
  - left. exists 1. auto.
  - left. exists 0. auto.
  - left. exists 1. auto.
  - right. split; [ reflexivity | ].
    now rewrite engine_calls_app, (Hno _ K), engine_events_calls.
Qed.

(** ** What stands between the command line and the engine *)

(** X6.  Whenever [resize_fs] is called, the mount test has let the
    device through, the filesystem came from a successful [ext2fs_open]
    and passed the feature test, the new size differs from the current
    block count, and, unless the force flag is set, the new size is no
    larger than the probed size of the device and the filesystem was not
    modified after its last check.  The new size is the size operand if
    it is not 0, and the size of the device otherwise. *)
Theorem engine_call_is_admitted {hdr : Headers} {w : World}
    (cl : cmdline) (fs : ext2_filsys) (n fl : Z) (cb : bool) :
  In (Ev_resize_fs fs n fl cb) (events (main cl)) ->
  exists t req max_size io,
    preflight cl = (t, Returns (req, fs, max_size))
    /\ mount_gate_passes (device_name req) = true
    /\ ext2fs_open (device_name req) EXT2_FLAG_RW io = (0, fs)
    /\ unsupported_features (super fs) = false
    /\ n <> s_blocks_count (super fs)
    /\ (force req = true
        \/ (n <= max_size /\ s_mtime (super fs) <= s_lastcheck (super fs)))
    /\ (new_size req <> 0 /\ n = new_size req
        \/ new_size req = 0 /\ n = max_size).
Proof.
  intros H.
  apply engine_call_inv in H
    as (t & req & m & Hp & Hc & -> & Hne & Hk & _).
  destruct (preflight_returns _ _ _ _ _ Hp)
    as (t1 & t2 & t3 & t4 & _ & Hm & _ & Ho & _ & _).
  apply check_mount_returns in Hm as [Hm _].
  apply open_filesystem_returns in Ho as [Hf (io & Ho & _)].
  exists t, req, m, io. repeat split; try assumption.
  - destruct Hc as [Hc | Hc]; [ now left | ].
    destruct Hk as [Hk | Hk]; [ now left | right; now split ].
  - unfold resolved_size.
    destruct (new_size req =? 0) eqn:E.
    + right. apply Z.eqb_eq in E. now split.
    + left. apply Z.eqb_neq in E. now split.
Qed.

(** The theorem on the plain run that grows 500 blocks to 1000. *)
Lemma engine_call_is_admitted_witness :
  exists t req max_size io,
    @preflight hdr0 w0 (cl0 [] ["/dev/hda1"]) = (t, Returns (req, fs0, max_size))
    /\ @mount_gate_passes hdr0 w0 (device_name req) = true
    /\ @ext2fs_open w0 (device_name req) (@EXT2_FLAG_RW hdr0) io = (0, fs0)
    /\ @unsupported_features hdr0 (super fs0) = false
    /\ 1000 <> s_blocks_count (super fs0)
    /\ (force req = true
        \/ (1000 <= max_size /\ s_mtime (super fs0) <= s_lastcheck (super fs0)))
    /\ (new_size req <> 0 /\ 1000 = new_size req
        \/ new_size req = 0 /\ 1000 = max_size).
Proof.
  apply (@engine_call_is_admitted hdr0 w0 (cl0 [] ["/dev/hda1"])
           fs0 1000 0 false).
  vm_compute. in_list.
Defined.

(** X7.  A device that the probe reports as mounted is never opened:
    whatever the options and the size operand of a command line that
    parses, the run makes the mount probe, prints that the device is
    mounted and exits with status 1, with no flush, no [ext2fs_open], no
    size probe and no engine call. *)
Theorem mounted_device_is_never_opened {hdr : Headers} {w : World}
    (cl : cmdline) (t : trace) (req : request) :
  parse_args cl = (t, Returns req) ->
  fst (ext2fs_check_if_mounted (device_name req)) = 0 ->
  Z.land (snd (ext2fs_check_if_mounted (device_name req))) EXT2_MF_MOUNTED
  <> 0 ->
  exit_status (main cl) = 1
  /\ kinds [KMessage; KMountProbe] (events (main cl))
  /\ exists t',
       events (main cl) =
       t' ++ [Ev_fprintf stderr
                "%s is mounted; can't resize a mounted filesystem!\n\n"
                [AStr (device_name req)]].
Proof.
  intros Hp H0 Hm.
  pose proof (check_mount_mounted _ H0 Hm) as Hc.
  assert (E : main cl =
    (t ++ [Ev_ext2fs_check_if_mounted (device_name req);
           Ev_fprintf stderr
             "%s is mounted; can't resize a mounted filesystem!\n\n"
             [AStr (device_name req)]], Exits 1)).
  { rewrite main_after_mount. rewrite (bind_returns _ _ _ _ Hp). cbv beta.
    now rewrite (bind_exits _ _ _ _ Hc). }
  rewrite E. unfold events, exit_status. simpl.
  split; [ reflexivity | ]. split.
  - pose proof (parse_args_kinds cl) as K. rewrite Hp in K. simpl in K.
    apply kinds_app; [ eapply kinds_incl; [ | exact K ]; solve_incl | ].
    solve_kinds.
  - exists (t ++ [Ev_ext2fs_check_if_mounted (device_name req)]).
    now rewrite <- app_assoc.
Qed.

(** The theorem on a mounted device with every option given. *)
Lemma mounted_device_is_never_opened_witness :
  exit_status
    (@main hdr0 w_mounted
       (cl0 [("f"%char, ""); ("F"%char, ""); ("p"%char, "")]
          ["/dev/hda1"; "800"])) = 1
  /\ kinds [KMessage; KMountProbe]
       (events
          (@main hdr0 w_mounted
             (cl0 [("f"%char, ""); ("F"%char, ""); ("p"%char, "")]
                ["/dev/hda1"; "800"]))).
Proof.
  destruct (@mounted_device_is_never_opened hdr0 w_mounted
              (cl0 [("f"%char, ""); ("F"%char, ""); ("p"%char, "")]
                 ["/dev/hda1"; "800"])
              (@banner hdr0)
              {| program_name := "resize2fs"; device_name := "/dev/hda1";
                 new_size := 800; flags := 256; flush := true;
                 force := true |}) as (H1 & H2 & _).
  - reflexivity.
  - reflexivity.
  - vm_compute. discriminate.
  - split; [ exact H1 | exact H2 ].
Defined.

(** X8.  A filesystem modified after its last check is resized only
    under the force flag.  Take a run that is through the size test of
    line 259 with a target different from the current block count, on a
    filesystem whose last check is older than its last modification.
    Without the force flag it asks for [e2fsck -f] on the device and
    exits with status 1 without calling the engine; with the force flag
    it calls the engine, once, for the target. *)
Theorem unchecked_filesystem_needs_force {hdr : Headers} {w : World}
    (cl : cmdline) (t : trace) (req : request) (fs : ext2_filsys)
    (max_size : Z) :
  preflight cl = (t, Returns (req, fs, max_size)) ->
  capacity_gate_passes req max_size ->
  resolved_size (new_size req) max_size <> s_blocks_count (super fs) ->
  s_lastcheck (super fs) < s_mtime (super fs) ->
  (force req = false ->
   main cl =
     (t ++ [Ev_fprintf stderr "Please run 'e2fsck -f %s' first.\n\n"
              [AStr (device_name req)]],
      Exits 1)
   /\ engine_calls (events (main cl)) = 0%nat)
  /\ (force req = true ->
      main cl =
        (t ++ engine_events req fs (resolved_size (new_size req) max_size),
         Returns 0)
      /\ engine_calls (events (main cl)) = 1%nat).
Proof.
  intros Hp Hc Hne Hlt.
  assert (Hk : engine_calls t = 0%nat).
  { pose proof (preflight_kinds cl) as K. rewrite Hp in K.
    eapply engine_calls_kinds; [ exact K | ].
    simpl. intuition discriminate. }
  rewrite (main_run _ _ _ _ _ Hp). unfold events. split.
  - intros Hf. rewrite resize_and_report_needs_check; try assumption.
    + simpl. split; [ reflexivity | ].
      now rewrite engine_calls_app, Hk.
    + unfold consistency_gate_passes. rewrite Hf.
      intros [H | H]; [ discriminate | lia ].
  - intros Hf. rewrite resize_and_report_engine; try assumption.
    + simpl. split; [ reflexivity | ].
      now rewrite engine_calls_app, Hk, engine_events_calls.
    + now left.
Qed.

(** The theorem on a filesystem of 500 blocks modified after its last
    check, asked to become 800 blocks, without and with [-f]. *)
Lemma unchecked_filesystem_needs_force_witness :
  (@main hdr0 w_unchecked (cl0 [] ["/dev/hda1"; "800"]) =
     ((@banner hdr0
         ++ [Ev_ext2fs_check_if_mounted "/dev/hda1";
             Ev_ext2fs_open "/dev/hda1" 1 unix_io_manager;
             Ev_ext2fs_get_device_size "/dev/hda1" 1024])
        ++ [Ev_fprintf stderr "Please run 'e2fsck -f %s' first.\n\n"
              [AStr "/dev/hda1"]],
      Exits 1)
   /\ engine_calls
        (events (@main hdr0 w_unchecked (cl0 [] ["/dev/hda1"; "800"])))
      = 0%nat)
  /\ engine_calls
       (events (@main hdr0 w_unchecked
                  (cl0 [("f"%char, "")] ["/dev/hda1"; "800"])))
     = 1%nat.
Proof.
  split.
  - destruct (@unchecked_filesystem_needs_force hdr0 w_unchecked
             (cl0 [] ["/dev/hda1"; "800"])
             (@banner hdr0
                ++ [Ev_ext2fs_check_if_mounted "/dev/hda1";
                    Ev_ext2fs_open "/dev/hda1" 1 unix_io_manager;
                    Ev_ext2fs_get_device_size "/dev/hda1" 1024])
             {| program_name := "resize2fs"; device_name := "/dev/hda1";
                new_size := 800; flags := 0; flush := false;
                force := false |}
             {| super := sb_unchecked; blocksize := 1024 |} 1000)
      as [H1 _].
    + reflexivity.
    + right. vm_compute. discriminate.
    + vm_compute. discriminate.
    + reflexivity.
    + apply H1. reflexivity.
  - destruct (@unchecked_filesystem_needs_force hdr0 w_unchecked
             (cl0 [("f"%char, "")] ["/dev/hda1"; "800"])
             (@banner hdr0
                ++ [Ev_ext2fs_check_if_mounted "/dev/hda1";
                    Ev_ext2fs_open "/dev/hda1" 1 unix_io_manager;
                    Ev_ext2fs_get_device_size "/dev/hda1" 1024])
             {| program_name := "resize2fs"; device_name := "/dev/hda1";
                new_size := 800; flags := 0; flush := false;
                force := true |}
             {| super := sb_unchecked; blocksize := 1024 |} 1000)
      as [_ H2].
    + reflexivity.
    + now left.
    + vm_compute. discriminate.
    + reflexivity.
    + apply H2. reflexivity.
Defined.

(** ** Optional steps: the flush, the test I/O manager, the progress meter *)

Section OptionalSteps.

Context {hdr : Headers} {w : World}.

(** An event of a sequence belongs to its first half, or to the second
    half run on what the first returned. *)
Lemma bind_In {A B : Type} (m : proc A) (k : A -> proc B) (e : event) :
  In e (fst (bind m k)) ->
  In e (fst m)
  \/ exists t a, m = (t, Returns a) /\ In e (fst (k a)).
Proof.
  destruct m as [t [a | s]]; simpl; [ | now left ].
  destruct (k a) as [t' o] eqn:E. simpl. intros H.
  apply in_app_or in H as [H | H]; [ now left | right ].
  exists t, a. rewrite E. now split.
Qed.

Lemma bind_events_prefix {A B : Type} (m : proc A) (k : A -> proc B) :
  exists t', fst (bind m k) = fst m ++ t'.
Proof.
  destruct m as [t [a | s]]; simpl.
  - destruct (k a) as [t' o]. now exists t'.
  - exists []. now rewrite app_nil_r.
Qed.

Lemma not_in_options_existsb (c : ascii) (opts : list (ascii * string)) :
  (forall optarg, ~ In (c, optarg) opts) ->
  existsb (fun o => Ascii.eqb (fst o) c) opts = false.
Proof.
  intros H. destruct (existsb (fun o => Ascii.eqb (fst o) c) opts) eqn:E;
    [ | reflexivity ].
  apply existsb_exists in E as ([c' a] & Hin & Hc). simpl in Hc.
  apply Ascii.eqb_eq in Hc. subst c'. now apply H in Hin.
Qed.

Lemma in_options_existsb (c : ascii) (optarg : string)
    (opts : list (ascii * string)) :
  In (c, optarg) opts ->
  existsb (fun o => Ascii.eqb (fst o) c) opts = true.
Proof.
  intros H. apply existsb_exists. exists (c, optarg).
  split; [ exact H | apply Ascii.eqb_refl ].
Qed.

Lemma after_flush_kinds req :
  kinds [KMessage; KOpen; KSizeProbe; KEngine; KProgress; KClose]
    (fst (fs <- open_filesystem req ;;
          max_size <- probe_device_size req fs ;;
          resize_and_report req fs max_size)).
Proof.
  apply bind_kinds;
    [ eapply kinds_incl; [ | apply open_filesystem_kinds ]; solve_incl | ].
  intros fs. apply bind_kinds;
    [ eapply kinds_incl; [ | apply probe_device_size_kinds ]; solve_incl | ].
  intros m. eapply kinds_incl; [ | apply resize_and_report_kinds ].
  solve_incl.
Qed.

Lemma open_filesystem_In req name fl io :
  In (Ev_ext2fs_open name fl io) (fst (open_filesystem req)) ->
  name = device_name req /\ fl = EXT2_FLAG_RW
  /\ io = (if Z.land (flags req) RESIZE_DEBUG_IO =? 0
           then unix_io_manager else test_io_manager)
  /\ (io = test_io_manager ->
      In (Ev_set_test_io_backing_manager unix_io_manager)
        (fst (open_filesystem req))).
Proof.
  unfold open_filesystem.
  destruct (Z.land (flags req) RESIZE_DEBUG_IO =? 0); simpl;
    match goal with
    | |- context [ext2fs_open ?d ?f ?i] =>
        destruct (ext2fs_open d f i) as [rv fs]
    end;
    (destruct (rv =? 0); simpl;
     [ destruct (unsupported_features (super fs)) | ]); simpl;
    intros H; repeat destruct H as [H | H]; try discriminate H;
    try contradiction;
    injection H as <- <- <-; repeat split; auto; discriminate.
Qed.

Lemma combined_flags_clear opts start m :
  (forall optarg, ~ In ("p"%char, optarg) opts) ->
  (forall optarg, In ("d"%char, optarg) opts -> Z.land (atoi optarg) m = 0) ->
  Z.land start m = 0 ->
  Z.land (combined_flags opts start) m = 0.
Proof.
  revert start. induction opts as [ | [c a] opts IH]; intros start Hp Hd H0.
  - exact H0.
  - unfold combined_flags. simpl. apply IH.
    + intros optarg Hin. apply (Hp optarg). now right.
    + intros optarg Hin. apply Hd. now right.
    + destruct (Ascii.eqb c "d") eqn:Ed.
      { apply Ascii.eqb_eq in Ed. subst c.
        rewrite Z.land_lor_distr_l, H0, (Hd a); [ reflexivity | now left ]. }
      destruct (Ascii.eqb c "p") eqn:Ep; [ | exact H0 ].
      apply Ascii.eqb_eq in Ep. subst c. exfalso. apply (Hp a). now left.
Qed.

End OptionalSteps.

(** X9.  Without [-F] among the options the device is never opened for
    flushing: no run makes an [open], [ioctl] or [close] call.  With
    [-F], a command line that parses, a mount test that lets the run
    through and [BLKFLSBUF] defined, the device is opened read-only for
    the flush. *)
Theorem flush_only_with_F {hdr : Headers} {w : World} (cl : cmdline) :
  ((forall optarg, ~ In ("F"%char, optarg) (options cl)) ->
   kinds [KMessage; KMountProbe; KOpen; KSizeProbe; KEngine; KProgress;
          KClose]
     (events (main cl)))
  /\ (forall optarg t req t1 request,
        In ("F"%char, optarg) (options cl) ->
        parse_args cl = (t, Returns req) ->
        check_mount (device_name req) = (t1, Returns tt) ->
        BLKFLSBUF = Some request ->
        exists t',
          events (main cl) =
          t ++ t1 ++ Ev_open (device_name req) O_RDONLY :: t').
Proof.
  split.
  - intros HF. unfold main, events.
    pose proof (parse_args_kinds cl) as Kp.
    destruct (parse_args cl) as [tp [req | s]] eqn:Hp; simpl in Kp |- *.
    2: { eapply kinds_incl; [ | exact Kp ]. solve_incl. }
    apply parse_args_flags in Hp as (_ & Hfl & _).
    rewrite (not_in_options_existsb _ _ HF) in Hfl.
    match goal with
    | |- kinds ?ks (fst (let (t', o) := ?m in (tp ++ t', o))) =>
        assert (K : kinds ks (fst m)); [ | destruct m; simpl in *;
          apply kinds_app; [ eapply kinds_incl; [ | exact Kp ]; solve_incl
                           | exact K ] ]
    end.
    apply bind_kinds;
      [ eapply kinds_incl; [ | apply check_mount_kinds ]; solve_incl | ].
    intros _. unfold flush_if_requested. rewrite Hfl.
    rewrite bind_ret_l.
    eapply kinds_incl; [ | apply after_flush_kinds ]. solve_incl.
  - intros optarg t req t1 request HF Hp Hm HB.
    pose proof (parse_args_flags _ _ _ Hp) as (_ & Hfl & _).
    rewrite (in_options_existsb _ _ _ HF) in Hfl.
    unfold main, events. rewrite (bind_returns _ _ _ _ Hp). cbv beta.
    rewrite (bind_returns _ _ _ _ Hm). simpl fst.
    unfold flush_if_requested. rewrite Hfl.
    match goal with
    | |- context [bind (flush_device ?d) ?k] =>
        destruct (bind_events_prefix (flush_device d) k) as [t' ->]
    end.
    unfold flush_device. rewrite HB.
    destruct (open (device_name req) O_RDONLY) as [fd errno].
    destruct (fd <? 0); simpl; [ eauto | ].
    destruct (ioctl fd request) as [r errno'].
    destruct (r <? 0); simpl; eauto.
Qed.

(** The theorem on a run without options, and on a run with [-F]. *)
Lemma flush_only_with_F_witness :
  kinds [KMessage; KMountProbe; KOpen; KSizeProbe; KEngine; KProgress;
         KClose]
    (events (@main hdr0 w0 (cl0 [] ["/dev/hda1"])))
  /\ exists t',
       events (@main hdr0 w0 (cl0 [("F"%char, "")] ["/dev/hda1"])) =
       @banner hdr0 ++ [Ev_ext2fs_check_if_mounted "/dev/hda1"]
         ++ Ev_open "/dev/hda1" 0 :: t'.
Proof.
  split.
  - apply (proj1 (@flush_only_with_F hdr0 w0 (cl0 [] ["/dev/hda1"]))).
    intros optarg H. destruct H.
  - apply (proj2 (@flush_only_with_F hdr0 w0
                    (cl0 [("F"%char, "")] ["/dev/hda1"]))
             ""
             (@banner hdr0)
             {| program_name := "resize2fs"; device_name := "/dev/hda1";
                new_size := 0; flags := 0; flush := true; force := false |}
             [Ev_ext2fs_check_if_mounted "/dev/hda1"] 4705).
    + now left.
    + reflexivity.
    + reflexivity.
    + reflexivity.
Defined.

(** X10.  The filesystem is opened only by a run whose command line
    parsed and whose mount test let the device through; it is opened on
    the first operand, with [EXT2_FLAG_RW], through the test I/O manager
    if the debug mask has a bit of [RESIZE_DEBUG_IO] and through the Unix
    one otherwise; in the first case the Unix manager has been set as the
    backing manager of the test one. *)
Theorem filesystem_open_arguments {hdr : Headers} {w : World}
    (cl : cmdline) (name : string) (fl : Z) (io : io_manager) :
  In (Ev_ext2fs_open name fl io) (events (main cl)) ->
  exists t req,
    parse_args cl = (t, Returns req)
    /\ mount_gate_passes (device_name req) = true
    /\ name = device_name req
    /\ fl = EXT2_FLAG_RW
    /\ io = (if Z.land (flags req) RESIZE_DEBUG_IO =? 0
             then unix_io_manager else test_io_manager)
    /\ (io = test_io_manager ->
        In (Ev_set_test_io_backing_manager unix_io_manager)
          (events (main cl))).
Proof.
  unfold events. intros H.
  assert (Hmain : forall e, In e (fst (main cl)) -> In e (fst (main cl)))
    by auto.
  unfold main in H.
  apply bind_In in H as [H | (t & req & Hp & H)].
  { apply (kinds_In _ _ _ (parse_args_kinds cl)) in H. simpl in H.
    intuition discriminate. }
  apply bind_In in H as [H | (t1 & [] & Hm & H)].
  { apply (kinds_In _ _ _ (check_mount_kinds _)) in H. simpl in H.
    intuition discriminate. }
  apply bind_In in H as [H | (t2 & [] & Hf & H)].
  { apply (kinds_In _ _ _ (flush_step_kinds _)) in H. simpl in H.
    intuition discriminate. }
  apply bind_In in H as [H | (t3 & fs & Ho & H)].
  2: { exfalso. apply bind_In in H as [H | (t4 & m & Hs & H)].
       - apply (kinds_In _ _ _ (probe_device_size_kinds _ _)) in H.
         simpl in H. intuition discriminate.
       - apply (kinds_In _ _ _ (resize_and_report_kinds _ _ _)) in H.
         simpl in H. intuition discriminate. }
  apply open_filesystem_In in H as (-> & -> & -> & Hb).
  exists t, req. split; [ exact Hp | ].
  split; [ now apply check_mount_returns in Hm | ].
  repeat split. intros Ht. specialize (Hb Ht).
  unfold main. rewrite (bind_returns _ _ _ _ Hp). cbv beta. simpl fst.
  apply in_or_app. right.
  rewrite (bind_returns _ _ _ _ Hm). simpl fst.
  apply in_or_app. right.
  rewrite (bind_returns _ _ _ _ Hf). simpl fst.
  apply in_or_app. right.
  match goal with
  | |- In _ (fst (bind ?m ?k)) =>
      destruct (bind_events_prefix m k) as [t' ->]
  end.
  apply in_or_app. now left.
Qed.

(** The theorem on a run with [-d 1], the value of [RESIZE_DEBUG_IO] in
    the sample headers. *)
Lemma filesystem_open_arguments_witness :
  exists t req,
    @parse_args hdr0 w0 (cl0 [("d"%char, "1")] ["/dev/hda1"])
    = (t, Returns req)
    /\ @mount_gate_passes hdr0 w0 (device_name req) = true
    /\ "/dev/hda1" = device_name req
    /\ 1 = @EXT2_FLAG_RW hdr0
    /\ test_io_manager
       = (if Z.land (flags req) (@RESIZE_DEBUG_IO hdr0) =? 0
          then unix_io_manager else test_io_manager)
    /\ (test_io_manager = test_io_manager ->
        In (Ev_set_test_io_backing_manager unix_io_manager)
          (events (@main hdr0 w0 (cl0 [("d"%char, "1")] ["/dev/hda1"])))).
Proof.
  apply (@filesystem_open_arguments hdr0 w0
           (cl0 [("d"%char, "1")] ["/dev/hda1"])
           "/dev/hda1" 1 test_io_manager).
  vm_compute. in_list.
Defined.

(** X11.  Progress reporting is off unless an option asks for it: with
    no [-p] and no [-d] value that has a bit of
    [RESIZE_PERCENT_COMPLETE], no run ever calls the progress meter, and
    a call of the engine is made without the callback; what the run
    prints after that call is the error report, if the engine failed,
    and the closing message, whatever progress points the engine has. *)
Theorem no_progress_unless_requested {hdr : Headers} {w : World}
    (cl : cmdline) :
  (forall optarg, ~ In ("p"%char, optarg) (options cl)) ->
  (forall optarg,
     In ("d"%char, optarg) (options cl) ->
     Z.land (atoi optarg) RESIZE_PERCENT_COMPLETE = 0) ->
  kinds [KMessage; KMountProbe; KFlush; KOpen; KSizeProbe; KEngine; KClose]
    (events (main cl))
  /\ (forall fs n fl cb,
        In (Ev_resize_fs fs n fl cb) (events (main cl)) ->
        cb = false
        /\ exists t req,
             events (main cl) =
             t ++ Ev_resize_fs fs n fl false
               :: (if negb (snd (resize_fs fs n fl false) =? 0) then
                     [Ev_com_err (program_name req)
                        (snd (resize_fs fs n fl false))
                        "while trying to resize %s" [AStr (device_name req)];
                      Ev_ext2fs_close fs]
                   else [])
               ++ [Ev_fprintf stdout
                     "The filesystem on %s is now %d blocks long.\n\n"
                     [AStr (device_name req); ANum n]]).
Proof.
  intros Hp Hd.
  assert (Hoff : forall t req fs m,
            preflight cl = (t, Returns (req, fs, m)) ->
            progress_requested (flags req) = false).
  { intros t req fs m H.
    destruct (preflight_returns _ _ _ _ _ H) as (_ & _ & _ & _ & Hq & _).
    apply parse_args_returns in Hq as (_ & _ & Hfl & _).
    unfold progress_requested. rewrite Hfl.
    rewrite (combined_flags_clear _ 0 _ Hp Hd); [ reflexivity | ].
    apply Z.land_0_l. }
  split.
  - pose proof (preflight_kinds cl) as K. unfold events.
    destruct (main_cases cl)
      as [(t & Hpre & ->) | (t & req & fs & m & Hpre & ->)];
      rewrite Hpre in K; simpl in K |- *.
    { eapply kinds_incl; [ | exact K ]. solve_incl. }
    apply kinds_app; [ eapply kinds_incl; [ | exact K ]; solve_incl | ].
    destruct (resize_and_report_cases req fs m)
      as [(_ & e & -> & He) | [(_ & _ & e & -> & He)
         | [(_ & _ & _ & e & -> & He) | (_ & _ & _ & ->)]]]; simpl;
      try (apply kinds_cons; [ rewrite He; simpl; auto | apply kinds_nil ]).
    unfold engine_events. rewrite (Hoff _ _ _ _ Hpre).
    destruct (resize_fs fs (resolved_size (new_size req) m) (flags req) false)
      as [calls rv].
    destruct (rv =? 0); simpl; solve_kinds.
  - intros fs n fl cb H.
    apply engine_call_inv in H
      as (t & req & m & Hpre & _ & _ & _ & _ & -> & -> & Hm).
    rewrite (Hoff _ _ _ _ Hpre). split; [ reflexivity | ].
    exists t, req. unfold events. rewrite Hm. simpl.
    unfold engine_events. rewrite (Hoff _ _ _ _ Hpre).
    now destruct (resize_fs fs n (flags req) false) as [calls rv].
Qed.

(** The theorem on an engine with five progress points, run without
    options. *)
Lemma no_progress_unless_requested_witness :
  kinds [KMessage; KMountProbe; KFlush; KOpen; KSizeProbe; KEngine; KClose]
    (events (@main hdr0 w_two_passes (cl0 [("d"%char, "1")] ["/dev/hda1"]))).
Proof.
  apply (@no_progress_unless_requested hdr0 w_two_passes
           (cl0 [("d"%char, "1")] ["/dev/hda1"])).
  - intros optarg [H | []]. discriminate H.
  - intros optarg [H | []]. injection H as <-. reflexivity.
Defined.

(** ** The progress callback *)

Section MeterFacts.

Context {hdr : Headers} {w : World}.

Lemma meter_replay_app live t1 t2 :
  meter_replay live (t1 ++ t2) =
  match meter_replay live t1 with
  | Some live' => meter_replay live' t2
  | None => None
  end.
Proof.
  revert live. induction t1 as [ | e t1 IH]; intros live; [ reflexivity | ].
  destruct e; simpl; try apply IH.
  - destruct (live =? 0); [ | reflexivity ].
    destruct (ext2fs_progress_init label max) as [rv p]. apply IH.
  - destruct (negb (prog =? 0) && (prog =? live)); [ apply IH | reflexivity ].
  - destruct (negb (prog =? 0) && (prog =? live)); [ apply IH | reflexivity ].
Qed.

(** One call of the callback keeps the discipline and leaves in
    [prog_data] the meter that is open. *)
Lemma resize_progress_func_meter rfs pass cur max :
  meter_replay (prog_data rfs)
    (fst (fst (resize_progress_func rfs pass cur max)))
  = Some (prog_data (snd (fst (resize_progress_func rfs pass cur max)))).
Proof.
  unfold resize_progress_func.
  destruct (max =? 0); [ reflexivity | ].
  destruct (cur =? 0).
  - destruct (ext2fs_progress_init (pass_label pass) max) as [rv p] eqn:Ei.
    destruct (prog_data rfs =? 0) eqn:E0;
      destruct (rv =? 0) eqn:Erv; destruct (p =? 0) eqn:Ep;
      destruct (max <=? cur); simpl;
      rewrite ?E0, ?Z.eqb_refl, ?Ei, ?Erv, ?Ep; simpl;
      rewrite ?E0, ?Z.eqb_refl, ?Ei, ?Erv, ?Ep; simpl;
      rewrite ?Z.eqb_refl, ?Ep; try reflexivity.
    all: apply Z.eqb_eq in Ep; now rewrite Ep.
  - destruct (prog_data rfs =? 0) eqn:E0; destruct (max <=? cur); simpl;
      rewrite ?E0, ?Z.eqb_refl; simpl; rewrite ?E0, ?Z.eqb_refl;
      try reflexivity.
    all: apply Z.eqb_eq in E0; now rewrite E0.
Qed.

End MeterFacts.

(** X12.  Whatever progress points the engine reports, in whatever
    order, and whether or not a meter can be made, the callback keeps
    the discipline of the progress meter: it never makes a meter while
    one is open (none is leaked), it updates and closes only the meter
    that is open, never NULL and never one already closed, and
    [prog_data] holds the open meter, or NULL, after every call. *)
Theorem progress_meter_discipline {hdr : Headers} {w : World}
    (rfs : ext2_resize_t) (calls : list progress_call) :
  meter_replay (prog_data rfs) (fst (run_progress rfs calls))
  = Some (prog_data (snd (run_progress rfs calls))).
Proof.
  revert rfs. induction calls as [ | [[pass cur] max] calls IH]; intros rfs.
  - reflexivity.
  - simpl. pose proof (resize_progress_func_meter rfs pass cur max) as H.
    destruct (resize_progress_func rfs pass cur max) as [[t rfs'] r].
    specialize (IH rfs').
    destruct (run_progress rfs' calls) as [t' rfs'']. simpl in *.
    now rewrite meter_replay_app, H.
Qed.

(** X13.  When no progress meter can be made, the resize goes on
    without one: started with no meter, and with [ext2fs_progress_init]
    failing every time, the callback tries once at the start of every
    pass, never calls update or close, leaves [prog_data] NULL, and
    returns 0 on every call. *)
Theorem failing_meter_is_not_fatal {hdr : Headers} {w : World}
    (calls : list progress_call) :
  (forall label max, fst (ext2fs_progress_init label max) <> 0) ->
  let r := run_progress {| prog_data := 0 |} calls in
  count is_progress_init (fst r) = List.length (filter starts_pass calls)
  /\ count is_progress_update (fst r) = 0%nat
  /\ count is_progress_close (fst r) = 0%nat
  /\ prog_data (snd r) = 0
  /\ (forall rfs pass cur max,
        snd (resize_progress_func rfs pass cur max) = 0).
Proof.
  intros Hfail r. subst r.
  split; [ | split; [ | split; [ | split ] ] ].
  5: { intros. apply resize_progress_func_returns_0. }
  all: induction calls as [ | [[pass cur] max] calls IH]; try reflexivity.
  all: simpl; unfold resize_progress_func; simpl.
  all: destruct (max =? 0) eqn:Em; simpl;
    [ destruct (run_progress {| prog_data := 0 |} calls) as [t' rfs''];
      exact IH | ].
  all: destruct (cur =? 0) eqn:Ec; simpl.
  all: try (pose proof (Hfail (pass_label pass) max) as Hf;
            destruct (ext2fs_progress_init (pass_label pass) max)
              as [rv p]; simpl in Hf; apply Z.eqb_neq in Hf; rewrite Hf;
            simpl).
  all: destruct (max <=? cur); simpl.
  all: destruct (run_progress {| prog_data := 0 |} calls) as [t' rfs''].
  all: simpl in *; unfold count in *; simpl; try exact IH.
  all: now rewrite IH.
Qed.

(** The theorem on the two passes of the sample script. *)
Lemma failing_meter_is_not_fatal_witness :
  let r := @run_progress hdr0 w_no_meter {| prog_data := 0 |}
             (two_passes 1 2) in
  count is_progress_init (fst r) = 2%nat
  /\ count is_progress_update (fst r) = 0%nat
  /\ count is_progress_close (fst r) = 0%nat
  /\ prog_data (snd r) = 0.
Proof.
  destruct (@failing_meter_is_not_fatal hdr0 w_no_meter (two_passes 1 2))
    as (H1 & H2 & H3 & H4 & _).
  - intros label max. simpl. discriminate.
  - repeat split; assumption.
Defined.

(** ** Failures of the library calls *)

Section LibraryFailures.

Context {hdr : Headers} {w : World}.

Lemma main_stops_in_open_filesystem cl t req t1 t2 t3 s :
  parse_args cl = (t, Returns req) ->
  check_mount (device_name req) = (t1, Returns tt) ->
  flush_if_requested req = (t2, Returns tt) ->
  open_filesystem req = (t3, Exits s) ->
  main cl = (t ++ t1 ++ t2 ++ t3, Exits s).
Proof.
  intros Hp Hm Hf Ho. unfold main.
  rewrite (bind_returns _ _ _ _ Hp). cbv beta.
  rewrite (bind_returns _ _ _ _ Hm). cbv beta.
  rewrite (bind_returns _ _ _ _ Hf). cbv beta.
  now rewrite (bind_exits _ _ _ _ Ho).
Qed.

Lemma kinds_before_open cl t req t1 t2 :
  parse_args cl = (t, Returns req) ->
  check_mount (device_name req) = (t1, Returns tt) ->
  flush_if_requested req = (t2, Returns tt) ->
  kinds [KMessage; KMountProbe; KFlush; KOpen; KSizeProbe] (t ++ t1 ++ t2).
Proof.
  intros Hp Hm Hf.
  pose proof (parse_args_kinds cl) as Kp. rewrite Hp in Kp.
  pose proof (check_mount_kinds (device_name req)) as Km. rewrite Hm in Km.
  pose proof (flush_step_kinds req) as Kf. rewrite Hf in Kf.
  simpl in *.
  repeat apply kinds_app; (eapply kinds_incl; [ | eassumption ]); solve_incl.
Qed.

End LibraryFailures.

(** X14.  A failing [ext2fs_open] ends the run: the error is reported
    through [com_err] with the code the library gave and the device
    name, the line about the superblock is printed, and the program
    exits with status 1 without probing the size of the device and
    without calling the engine. *)
Theorem open_failure_is_fatal {hdr : Headers} {w : World}
    (cl : cmdline) (t : trace) (req : request) (t1 t2 : trace) :
  parse_args cl = (t, Returns req) ->
  check_mount (device_name req) = (t1, Returns tt) ->
  flush_if_requested req = (t2, Returns tt) ->
  let io := if Z.land (flags req) RESIZE_DEBUG_IO =? 0
            then unix_io_manager else test_io_manager in
  fst (ext2fs_open (device_name req) EXT2_FLAG_RW io) <> 0 ->
  exit_status (main cl) = 1
  /\ kinds [KMessage; KMountProbe; KFlush; KOpen] (events (main cl))
  /\ exists t',
       events (main cl) =
       t' ++ [Ev_ext2fs_open (device_name req) EXT2_FLAG_RW io;
              Ev_com_err (program_name req)
                (fst (ext2fs_open (device_name req) EXT2_FLAG_RW io))
                "while trying to open %s" [AStr (device_name req)];
              Ev_fprintf stdout
                "Couldn't find valid filesystem superblock.\n" []].
Proof.
  intros Hp Hm Hf io Hfail.
  assert (Ho : exists pre,
            kinds [KMessage; KMountProbe; KFlush; KOpen] pre
            /\ open_filesystem req =
               (pre ++ [Ev_ext2fs_open (device_name req) EXT2_FLAG_RW io;
                        Ev_com_err (program_name req)
                          (fst (ext2fs_open (device_name req) EXT2_FLAG_RW io))
                          "while trying to open %s" [AStr (device_name req)];
                        Ev_fprintf stdout
                          "Couldn't find valid filesystem superblock.\n" []],
                Exits 1)).
  { subst io. unfold open_filesystem.
    destruct (Z.land (flags req) RESIZE_DEBUG_IO =? 0); simpl;
      match goal with
      | H : fst (ext2fs_open ?d ?f ?i) <> 0 |- _ =>
          destruct (ext2fs_open d f i) as [rv fs]; simpl in H;
          apply Z.eqb_neq in H; rewrite H; simpl
      end.
    - exists []. split; [ apply kinds_nil | reflexivity ].
    - exists [Ev_set_test_io_backing_manager unix_io_manager].
      split; [ solve_kinds | reflexivity ]. }
  destruct Ho as (pre & Kpre & Ho).
  rewrite (main_stops_in_open_filesystem _ _ _ _ _ _ _ Hp Hm Hf Ho).
  unfold exit_status, events. simpl. split; [ reflexivity | ]. split.
  - pose proof (kinds_before_open _ _ _ _ _ Hp Hm Hf) as K.
    pose proof (parse_args_kinds cl) as Kp. rewrite Hp in Kp.
    pose proof (check_mount_kinds (device_name req)) as Km. rewrite Hm in Km.
    pose proof (flush_step_kinds req) as Kf. rewrite Hf in Kf.
    simpl in Kp, Km, Kf.
    repeat apply kinds_app;
      try (eapply kinds_incl; [ | eassumption ]; solve_incl).
    solve_kinds.
  - exists (t ++ t1 ++ t2 ++ pre). now rewrite <- !app_assoc.
Qed.

(** The theorem on an [ext2fs_open] that fails with error 2. *)
Lemma open_failure_is_fatal_witness :
  exit_status (@main hdr0 w_open_fails (cl0 [] ["/dev/hda1"])) = 1
  /\ kinds [KMessage; KMountProbe; KFlush; KOpen]
       (events (@main hdr0 w_open_fails (cl0 [] ["/dev/hda1"]))).
Proof.
  destruct (@open_failure_is_fatal hdr0 w_open_fails
              (cl0 [] ["/dev/hda1"]) (@banner hdr0)
              {| program_name := "resize2fs"; device_name := "/dev/hda1";
                 new_size := 0; flags := 0; flush := false; force := false |}
              [Ev_ext2fs_check_if_mounted "/dev/hda1"] [])
    as (H1 & H2 & _).
  - reflexivity.
  - reflexivity.
  - reflexivity.
  - vm_compute. discriminate.
  - split; [ exact H1 | exact H2 ].
Defined.

(** X15.  A filesystem with a bit in its compatible feature word that
    is not in [EXT2_LIB_FEATURE_COMPAT_SUPP] is turned down right after
    it is opened: the run reports [EXT2_ET_UNSUPP_FEATURE] with the
    device name and exits with status 1, without probing the size of the
    device and without calling the engine, whether or not the force flag
    is set. *)
Theorem unknown_compat_feature_is_fatal {hdr : Headers} {w : World}
    (cl : cmdline) (t : trace) (req : request) (t1 t2 : trace)
    (fs : ext2_filsys) :
  parse_args cl = (t, Returns req) ->
  check_mount (device_name req) = (t1, Returns tt) ->
  flush_if_requested req = (t2, Returns tt) ->
  ext2fs_open (device_name req) EXT2_FLAG_RW
    (if Z.land (flags req) RESIZE_DEBUG_IO =? 0
     then unix_io_manager else test_io_manager) = (0, fs) ->
  Z.land (s_feature_compat (super fs))
    (Z.lnot EXT2_LIB_FEATURE_COMPAT_SUPP) <> 0 ->
  exit_status (main cl) = 1
  /\ kinds [KMessage; KMountProbe; KFlush; KOpen] (events (main cl))
  /\ exists t',
       events (main cl) =
       t' ++ [Ev_com_err (program_name req) EXT2_ET_UNSUPP_FEATURE "(%s)"
                [AStr (device_name req)]].
Proof.
  intros Hp Hm Hf Hopen Hbit.
  assert (Ho : exists pre,
            kinds [KMessage; KMountProbe; KFlush; KOpen] pre
            /\ open_filesystem req =
               (pre ++ [Ev_com_err (program_name req) EXT2_ET_UNSUPP_FEATURE
                          "(%s)" [AStr (device_name req)]],
                Exits 1)).
  { unfold open_filesystem, unsupported_features.
    apply Z.eqb_neq in Hbit.
    destruct (Z.land (flags req) RESIZE_DEBUG_IO =? 0); simpl;
      rewrite Hopen; simpl; rewrite Hbit; simpl.
    - exists [Ev_ext2fs_open (device_name req) EXT2_FLAG_RW unix_io_manager].
      split; [ solve_kinds | reflexivity ].
    - exists [Ev_set_test_io_backing_manager unix_io_manager;
              Ev_ext2fs_open (device_name req) EXT2_FLAG_RW test_io_manager].
      split; [ solve_kinds | reflexivity ]. }
  destruct Ho as (pre & Kpre & Ho).
  rewrite (main_stops_in_open_filesystem _ _ _ _ _ _ _ Hp Hm Hf Ho).
  unfold exit_status, events. simpl. split; [ reflexivity | ]. split.
  - pose proof (parse_args_kinds cl) as Kp. rewrite Hp in Kp.
    pose proof (check_mount_kinds (device_name req)) as Km. rewrite Hm in Km.
    pose proof (flush_step_kinds req) as Kf. rewrite Hf in Kf.
    simpl in Kp, Km, Kf.
    repeat apply kinds_app;
      try (eapply kinds_incl; [ | eassumption ]; solve_incl).
    solve_kinds.
  - exists (t ++ t1 ++ t2 ++ pre). now rewrite <- !app_assoc.
Qed.

(** The theorem on a filesystem with compatible feature bit 3, with
    [-f]. *)
Lemma unknown_compat_feature_is_fatal_witness :
  exit_status
    (@main hdr0 w_compat_feature (cl0 [("f"%char, "")] ["/dev/hda1"])) = 1
  /\ kinds [KMessage; KMountProbe; KFlush; KOpen]
       (events
          (@main hdr0 w_compat_feature (cl0 [("f"%char, "")] ["/dev/hda1"]))).
Proof.
  destruct (@unknown_compat_feature_is_fatal hdr0 w_compat_feature
              (cl0 [("f"%char, "")] ["/dev/hda1"]) (@banner hdr0)
              {| program_name := "resize2fs"; device_name := "/dev/hda1";
                 new_size := 0; flags := 0; flush := false; force := true |}
              [Ev_ext2fs_check_if_mounted "/dev/hda1"] []
              {| super := sb_compat_feature; blocksize := 1024 |})
    as (H1 & H2 & _).
  - reflexivity.
  - reflexivity.
  - reflexivity.
  - reflexivity.
  - vm_compute. discriminate.
  - split; [ exact H1 | exact H2 ].
Defined.

(** X16.  A failing probe of the device size ends the run: the error is
    reported through [com_err] with the code the library gave, and the
    program exits with status 1 without calling the engine.  The probe is
    made on the device named on the command line, with the block size of
    the filesystem just opened. *)
Theorem size_probe_failure_is_fatal {hdr : Headers} {w : World}
    (cl : cmdline) (t : trace) (req : request) (t1 t2 t3 : trace)
    (fs : ext2_filsys) :
  parse_args cl = (t, Returns req) ->
  check_mount (device_name req) = (t1, Returns tt) ->
  flush_if_requested req = (t2, Returns tt) ->
  open_filesystem req = (t3, Returns fs) ->
  fst (ext2fs_get_device_size (device_name req) (blocksize fs)) <> 0 ->
  main cl =
    (t ++ t1 ++ t2 ++ t3
       ++ [Ev_ext2fs_get_device_size (device_name req) (blocksize fs);
           Ev_com_err (program_name req)
             (fst (ext2fs_get_device_size (device_name req) (blocksize fs)))
             "while trying to determine filesystem size" []],
     Exits 1)
  /\ engine_calls (events (main cl)) = 0%nat.
Proof.
  intros Hp Hm Hf Ho Hfail.
  assert (Hs : probe_device_size req fs =
    ([Ev_ext2fs_get_device_size (device_name req) (blocksize fs);
      Ev_com_err (program_name req)
        (fst (ext2fs_get_device_size (device_name req) (blocksize fs)))
        "while trying to determine filesystem size" []], Exits 1)).
  { unfold probe_device_size.
    destruct (ext2fs_get_device_size (device_name req) (blocksize fs))
      as [rv m]. simpl in *. apply Z.eqb_neq in Hfail. now rewrite Hfail. }
  assert (E : main cl =
    (t ++ t1 ++ t2 ++ t3
       ++ [Ev_ext2fs_get_device_size (device_name req) (blocksize fs);
           Ev_com_err (program_name req)
             (fst (ext2fs_get_device_size (device_name req) (blocksize fs)))
             "while trying to determine filesystem size" []],
     Exits 1)).
  { unfold main.
    rewrite (bind_returns _ _ _ _ Hp). cbv beta.
    rewrite (bind_returns _ _ _ _ Hm). cbv beta.
    rewrite (bind_returns _ _ _ _ Hf). cbv beta.
    rewrite (bind_returns _ _ _ _ Ho). cbv beta.
    now rewrite (bind_exits _ _ _ _ Hs). }
  split; [ exact E | ].
  rewrite E. unfold events. simpl.
  pose proof (kinds_before_open _ _ _ _ _ Hp Hm Hf) as K.
  pose proof (open_filesystem_kinds req) as Kopen. rewrite Ho in Kopen.
  simpl in Kopen.
  apply (engine_calls_kinds
           [KMessage; KMountProbe; KFlush; KOpen; KSizeProbe]).
  - rewrite !app_assoc. apply kinds_app; [ apply kinds_app | solve_kinds ].
    + rewrite <- !app_assoc. exact K.
    + eapply kinds_incl; [ | exact Kopen ]. solve_incl.
  - simpl. intuition discriminate.
Qed.

(** The theorem on a size probe that fails with error 5. *)
Lemma size_probe_failure_is_fatal_witness :
  @main hdr0 w_size_probe_fails (cl0 [] ["/dev/hda1"]) =
  (@banner hdr0
     ++ [Ev_ext2fs_check_if_mounted "/dev/hda1"] ++ []
     ++ [Ev_ext2fs_open "/dev/hda1" 1 unix_io_manager]
     ++ [Ev_ext2fs_get_device_size "/dev/hda1" 1024;
         Ev_com_err "resize2fs" 5
           "while trying to determine filesystem size" []],
   Exits 1)
  /\ engine_calls
       (events (@main hdr0 w_size_probe_fails (cl0 [] ["/dev/hda1"])))
     = 0%nat.
Proof.
  apply (@size_probe_failure_is_fatal hdr0 w_size_probe_fails
           (cl0 [] ["/dev/hda1"]) (@banner hdr0)
           {| program_name := "resize2fs"; device_name := "/dev/hda1";
              new_size := 0; flags := 0; flush := false; force := false |}
           [Ev_ext2fs_check_if_mounted "/dev/hda1"] []
           [Ev_ext2fs_open "/dev/hda1" 1 unix_io_manager] fs0).
  - reflexivity.
  - reflexivity.
  - reflexivity.
  - reflexivity.
  - vm_compute. discriminate.
Defined.
